(** * Offline LLM RAG system: the chunker, the ingestion pipeline and the
      retrieval / grounding protocol of [rag-service/main.py].

    Python values are embedded as follows.
    - [str] is [string]; a character is a code point below 256.
    - [int] is [Z]; [len] is a [nat] injected into [Z] where Python mixes it
      with an [int] parameter.
    - a [list] is a [list]; slicing and [range] follow CPython, including
      negative indices and the zero-step error.
    - a raised exception is the [Err] branch of [result]; handlers that
      run under FastAPI are state-passing functions over [World].
    - the collaborators (the file system, pypdf, the sentence embedder,
      the Chroma collection, the Ollama backend, [uuid4]) are section
      variables or input data: only their outcomes are modelled, and each
      of them may raise. The collection is the list of entries added so
      far. *)

From Stdlib Require Import ZArith Lia Ascii String DecimalString.
From Stdlib Require DecimalPos DecimalZ.
From stdpp Require Import base list strings gmap.

Local Open Scope Z_scope.
#[local] Set Warnings "-clear-no-such-hyp".

(** ** Exceptions *)

(** The exceptions the code raises itself ([ValueError] from [range],
    [IndexError] from indexing, [HTTPException]) and [Exception] for
    whatever else a collaborator raises. *)
Inductive exn : Type :=
  | ValueError (msg : string)
  | IndexError (msg : string)
  | Exception (msg : string)
  | HTTPException (status_code : Z) (detail : string).

Inductive result (A : Type) : Type :=
  | Ok (a : A)
  | Err (e : exn).
Arguments Ok {A} a.
Arguments Err {A} e.

(** Exceptions propagate through sequencing; [x ← r; k] is stdpp's
    notation for [mbind]. *)
#[global] Instance result_ret : MRet result := fun A a => Ok a.
#[global] Instance result_bind : MBind result := fun A B k r =>
  match r with
  | Ok a => k a
  | Err e => Err e
  end.

Definition is_err {A} (r : result A) : Prop :=
  match r with Ok _ => False | Err _ => True end.

(** ** Python [str] primitives *)

Module Py.

(** [str.isspace] on one code point below 256: TAB..CR, FS..US, SPACE,
    NEL and NBSP. *)
Definition is_space (c : ascii) : bool :=
  let n := N_of_ascii c in
  ((9 <=? n) && (n <=? 13) || (28 <=? n) && (n <=? 32)
   || (n =? 133) || (n =? 160))%N.

Definition truthy (s : string) : bool :=
  match s with EmptyString => false | String _ _ => true end.

(** [text.split()]: maximal runs of non-whitespace, in order. [cur] is the
    word being scanned. *)
Fixpoint split_from (cur : string) (s : string) : list string :=
  match s with
  | EmptyString => if truthy cur then [cur] else []
  | String c s' =>
      if is_space c
      then (if truthy cur then cur :: split_from "" s' else split_from "" s')
      else split_from (cur +:+ String c "") s'
  end.

Definition split (text : string) : list string := split_from "" text.

(** [sep.join(ws)] *)
Fixpoint join (sep : string) (ws : list string) : string :=
  match ws with
  | [] => ""
  | [w] => w
  | w :: ws' => w +:+ sep +:+ join sep ws'
  end.

Fixpoint lstrip (s : string) : string :=
  match s with
  | EmptyString => ""
  | String c s' => if is_space c then lstrip s' else s
  end.

Fixpoint rstrip (s : string) : string :=
  match s with
  | EmptyString => ""
  | String c s' =>
      match rstrip s' with
      | EmptyString => if is_space c then "" else String c ""
      | r => String c r
      end
  end.

(** A word: non-empty and free of whitespace. *)
Fixpoint no_space (s : string) : bool :=
  match s with
  | EmptyString => true
  | String c s' => negb (is_space c) && no_space s'
  end.

Definition is_word (s : string) : bool := truthy s && no_space s.

Fixpoint all_space (s : string) : bool :=
  match s with
  | EmptyString => true
  | String c s' => is_space c && all_space s'
  end.

(** [text.strip()] *)
Definition strip (s : string) : string := rstrip (lstrip s).

(** [s.endswith(suffix)] *)
Fixpoint endswith (s suffix : string) : bool :=
  if String.eqb s suffix then true
  else match s with
       | EmptyString => false
       | String _ s' => endswith s' suffix
       end.

(** [str(n)] for an [int]. *)
Definition str_of_int (n : Z) : string := NilZero.string_of_int (Z.to_int n).

(** [range(start, stop, step)], with the length CPython computes. *)
Definition range_length (start stop step : Z) : Z :=
  if 0 <? step
  then (if start <? stop then (stop - start - 1) / step + 1 else 0)
  else (if stop <? start then (start - stop - 1) / (- step) + 1 else 0).

Definition range (start stop step : Z) : result (list Z) :=
  if step =? 0 then Err (ValueError "range() arg 3 must not be zero")
  else Ok (map (fun k : nat => start + Z.of_nat k * step)
               (seq 0 (Z.to_nat (range_length start stop step)))).

(** Slice bound adjustment: a negative bound counts from the end, and the
    result is clipped to [0, n]. *)
Definition clip (n i : Z) : Z :=
  if i <? 0 then Z.max 0 (i + n) else Z.min i n.

(** [l[lo:hi]] *)
Definition slice {A} (l : list A) (lo hi : Z) : list A :=
  let n := Z.of_nat (length l) in
  let a := clip n lo in
  let b := clip n hi in
  take (Z.to_nat (b - a)) (drop (Z.to_nat a) l).

End Py.

(** ** The chunker *)

(** One pass of the loop body of [chunk_text]. *)
Definition chunk_step (words : list string) (chunk_size : Z)
    (chunks : list string) (i : Z) : list string :=
  let chunk := Py.join " " (Py.slice words i (i + chunk_size)) in
  if Py.truthy chunk then chunks ++ [chunk] else chunks.

Definition chunk_text (text : string) (chunk_size overlap : Z)
    : result (list string) :=
  let words := Py.split text in
  offsets ← Py.range 0 (Z.of_nat (length words)) (chunk_size - overlap);
  Ok (foldl (chunk_step words chunk_size) [] offsets).

(** The number of offsets [0, step, 2*step, ...] below [n], and the tokens
    of the window at the [k]-th offset; used to describe what the loop of
    [chunk_text] computes. *)
Definition window_count (n step : nat) : nat :=
  match n with
  | O => O
  | S n' => S (n' / step)
  end.

Definition window_tokens (words : list string) (size step k : nat)
    : list string :=
  take size (drop (k * step) words).

Definition tokens (chunk : string) : list string := Py.split chunk.

(** Two consecutive chunks share exactly [n] tokens: the last [n] tokens of
    the first are the first [n] tokens of the second. *)
Definition shares (n : nat) (c c' : string) : Prop :=
  exists before shared after,
    tokens c = before ++ shared /\ tokens c' = shared ++ after
    /\ length shared = n.

(** ** Data model *)

(** The dict with keys "text", "page" and "source": the code uses this one
    shape for a page chunk, for an entry of [all_chunks] and for a
    citation. *)
Record Chunk : Type := { text : string; page : Z; source : string }.

(** The metadata dict stored next to a document in the collection. *)
Record Metadata : Type := { meta_page : Z; meta_source : string }.

(** What pypdf makes of a file: it cannot be opened or parsed, or it has
    pages, each of which yields its text or makes [extract_text] raise.
    The [cause] is [str(e)] of the exception raised. *)
Inductive PageOutcome : Type :=
  | PageText (t : string)
  | PageRaises (cause : string).

Inductive Document : Type :=
  | Unreadable (cause : string)
  | Pages (pages : list PageOutcome).

Record UploadFile : Type := { filename : string; content : Document }.

Record UploadResponse : Type := { message : string; chunks_added : nat }.

Record QuestionRequest : Type := { question : string; top_k : Z }.

Record AnswerResponse : Type := { answer : string; citations : list Chunk }.

(** The result dict of [collection.query], one inner list per query
    embedding. *)
Record QueryResult : Type :=
  { documents : list (list string); metadatas : list (list Metadata) }.

(** What the Ollama call does inside the [try] block: [client.post] raises
    (the 120 s timeout, a connection error), [raise_for_status] raises,
    [response.json()] or [result.get] raises, or the body is a JSON object.
    Field values are strings. *)
Inductive BackendOutcome : Type :=
  | Timeout (cause : string)
  | NonSuccess (cause : string)
  | Malformed (cause : string)
  | Payload (fields : gmap string string).

(** ** Paths *)

Definition UPLOAD_DIR : string := "/app/uploads".

(** [Path(dir) / name]: an absolute right operand replaces the left one.
    The result is one spelling of the path; which file it names is for
    the file system to say. *)
Definition path_join (dir name : string) : string :=
  match name with
  | String "/" _ => name
  | _ => dir +:+ "/" +:+ name
  end.

(** [Path.name]: the final component. The paths met here end in ".pdf", so
    the final component is what follows the last slash. *)
Fixpoint name_from (cur : string) (p : string) : string :=
  match p with
  | EmptyString => cur
  | String c p' =>
      if Ascii.eqb c "/" then name_from "" p'
      else name_from (cur +:+ String c "") p'
  end.

Definition path_name (p : string) : string := name_from "" p.

Fixpoint no_slash (s : string) : bool :=
  match s with
  | EmptyString => true
  | String c s' => negb (Ascii.eqb c "/") && no_slash s'
  end.

(** The newline character of the prompt template. *)
Definition nl : string := String (ascii_of_nat 10) "".

(** ** The service *)

Section Service.

(** The collaborators. [encode texts] is what
    [embedding_model.encode(texts).tolist()] returns or raises, and
    [uuid4 k] is the [k]-th [str(uuid.uuid4())] drawn by the process. *)
Variable Embedding : Type.
Variable encode : list string -> result (list Embedding).
Variable uuid4 : nat -> string.

(** The file system. [resolve path] is the file a path names once the
    operating system has resolved it (two spellings of one path resolve
    to one file), and [open_rejects files path] is the exception
    [open(path, 'wb')] raises when the disk holds [files], if it raises:
    a missing directory, a refused permission. *)
Variable resolve : string -> string.
Variable open_rejects : gmap string Document -> string -> option exn.

Record Entry : Type :=
  { entry_id : string;
    entry_embedding : Embedding;
    entry_document : string;
    entry_metadata : Metadata }.

(** [add_rejects entries embeddings documents metadatas ids] is the
    exception [collection.add] raises for these arguments when the
    collection holds [entries], if it raises; [query entries v k] is what
    [collection.query] returns or raises; [ollama prompt] is the
    backend's reaction to a prompt. *)
Variable add_rejects :
  list Entry -> list Embedding -> list string -> list Metadata ->
  list string -> option exn.
Variable query : list Entry -> Embedding -> Z -> result QueryResult.
Variable ollama : string -> BackendOutcome.

(** The state the handlers share: the files on disk by the file they
    resolve to, the Chroma collection in insertion order, and the number
    of ids drawn. *)
Record World : Type :=
  { files : gmap string Document;
    collection : list Entry;
    uuids_drawn : nat }.

(** A handler runs on a world and leaves a world, with a value or with the
    exception that ended it. *)
Definition Handler (A : Type) : Type := World -> World * result A.

#[local] Instance handler_ret : MRet Handler := fun A a w => (w, Ok a).
#[local] Instance handler_bind : MBind Handler := fun A B k m w =>
  match m w with
  | (w', Ok a) => k a w'
  | (w', Err e) => (w', Err e)
  end.

Definition raise {A} (e : exn) : Handler A := fun w => (w, Err e).
Definition lift {A} (r : result A) : Handler A := fun w => (w, r).

(** [open(path, 'wb')] followed by [f.write(content)]: the file system
    raises and nothing is written, or the file holds the content. *)
Definition write_file (path : string) (doc : Document) : Handler unit :=
  fun w =>
    match open_rejects (files w) path with
    | Some e => (w, Err e)
    | None =>
        ({| files := <[resolve path := doc]> (files w);
            collection := collection w;
            uuids_drawn := uuids_drawn w |}, Ok tt)
    end.

(** [[str(uuid.uuid4()) for _ in items]] *)
Definition draw_ids (n : nat) : Handler (list string) :=
  fun w => ({| files := files w;
               collection := collection w;
               uuids_drawn := (uuids_drawn w + n)%nat |},
            Ok (map (fun k => uuid4 (uuids_drawn w + k)%nat) (seq 0 n))).

Definition make_entry (i : string) (e : Embedding) (d : string)
    (m : Metadata) : Entry :=
  {| entry_id := i; entry_embedding := e;
     entry_document := d; entry_metadata := m |}.

(** The batch [collection.add] receives: position [j] of each of the four
    lists makes entry [j]. *)
Definition batch (embeddings : list Embedding) (docs : list string)
    (metas : list Metadata) (ids : list string) : list Entry :=
  zip_with (fun '(i, e) '(d, m) => make_entry i e d m)
           (zip ids embeddings) (zip docs metas).

(** [collection.add(embeddings=, documents=, metadatas=, ids=)]: the
    index raises and stores nothing, or it appends the batch. *)
Definition collection_add (embeddings : list Embedding) (docs : list string)
    (metas : list Metadata) (ids : list string) : Handler unit :=
  fun w =>
    match add_rejects (collection w) embeddings docs metas ids with
    | Some e => (w, Err e)
    | None =>
        ({| files := files w;
            collection := collection w ++ batch embeddings docs metas ids;
            uuids_drawn := uuids_drawn w |}, Ok tt)
    end.

(** *** extract_text_from_pdf *)

(** The loop over [enumerate(pdf_reader.pages)], from page index
    [page_num] on. *)
Fixpoint extract_pages (name : string) (page_num : Z)
    (pages : list PageOutcome) : string + list Chunk :=
  match pages with
  | [] => inr []
  | PageRaises cause :: _ => inl cause
  | PageText t :: rest =>
      match extract_pages name (page_num + 1) rest with
      | inl cause => inl cause
      | inr chunks =>
          if Py.truthy (Py.strip t)
          then inr ({| text := t; page := page_num + 1; source := name |}
                    :: chunks)
          else inr chunks
      end
  end.

(** A path that names no file makes [open(pdf_path, 'rb')] raise; the
    cause is Python's text for it, with the path between quotes. *)
Definition extract_text_from_pdf (pdf_path : string) : Handler (list Chunk) :=
  fun w =>
    let outcome :=
      match files w !! resolve pdf_path with
      | None =>
          inl ("[Errno 2] No such file or directory: '" +:+ pdf_path +:+ "'")
      | Some (Unreadable cause) => inl cause
      | Some (Pages pages) => extract_pages (path_name pdf_path) 0 pages
      end in
    match outcome with
    | inl cause => (w, Err (HTTPException 400 ("Error reading PDF: " +:+ cause)))
    | inr chunks => (w, Ok chunks)
    end.

(** *** upload_pdf *)

Definition sub_chunks (page_chunk : Chunk) (text_chunks : list string)
    : list Chunk :=
  map (fun chunk => {| text := chunk; page := page page_chunk;
                       source := source page_chunk |}) text_chunks.

(** The nested loop that fills [all_chunks]; [chunk_text] runs with its
    default parameters. *)
Fixpoint build_all_chunks (page_chunks : list Chunk) : result (list Chunk) :=
  match page_chunks with
  | [] => Ok []
  | page_chunk :: rest =>
      text_chunks ← chunk_text (text page_chunk) 500 50;
      more ← build_all_chunks rest;
      Ok (sub_chunks page_chunk text_chunks ++ more)
  end.

Definition chunk_metadata (c : Chunk) : Metadata :=
  {| meta_page := page c; meta_source := source c |}.

Definition upload_pdf (file : UploadFile) : Handler UploadResponse :=
  if negb (Py.endswith (filename file) ".pdf")
  then raise (HTTPException 400 "Only PDF files are allowed")
  else
    let file_path := path_join UPLOAD_DIR (filename file) in
    _ ← write_file file_path (content file);
    page_chunks ← extract_text_from_pdf file_path;
    all_chunks ← lift (build_all_chunks page_chunks);
    let texts := map text all_chunks in
    embeddings ← lift (encode texts);
    ids ← draw_ids (length all_chunks);
    let metas := map chunk_metadata all_chunks in
    _ ← collection_add embeddings texts metas ids;
    mret {| message := "PDF indexed successfully";
            chunks_added := length all_chunks |}.

(** The world after the file is written. *)
Definition saved (file : UploadFile) (w : World) : World :=
  {| files :=
       <[resolve (path_join UPLOAD_DIR (filename file)) := content file]>
         (files w);
     collection := collection w;
     uuids_drawn := uuids_drawn w |}.

(** The ids an upload draws for [n] chunks, and the world after that. *)
Definition fresh_ids (w : World) (n : nat) : list string :=
  map (fun k => uuid4 (uuids_drawn w + k)%nat) (seq 0 n).

Definition drawn (file : UploadFile) (w : World) (n : nat) : World :=
  {| files := files (saved file w);
     collection := collection w;
     uuids_drawn := (uuids_drawn w + n)%nat |}.

(** The batch an upload hands to the index. *)
Definition upload_batch (w : World) (embeddings : list Embedding)
    (all_chunks : list Chunk) : list Entry :=
  batch embeddings (map text all_chunks) (map chunk_metadata all_chunks)
        (fresh_ids w (length all_chunks)).

(** The world after the batch is added. *)
Definition indexed (file : UploadFile) (w : World)
    (embeddings : list Embedding) (all_chunks : list Chunk) : World :=
  {| files := files (saved file w);
     collection := collection w ++ upload_batch w embeddings all_chunks;
     uuids_drawn := (uuids_drawn w + length all_chunks)%nat |}.

(** *** ask_question *)

(** [xs[0]] *)
Definition first_item {A} (xs : list A) : result A :=
  match xs with
  | [] => Err (IndexError "list index out of range")
  | x :: _ => Ok x
  end.

(** [enumerate(xs)] *)
Definition enumerate {A} (xs : list A) : list (nat * A) :=
  imap (fun i x => (i, x)) xs.

Definition source_label (i : nat) (doc : string) : string :=
  "[Source " +:+ Py.str_of_int (Z.of_nat i + 1) +:+ "] " +:+ doc.

Definition citation_of (doc : string) (metadata : Metadata) : Chunk :=
  {| text := doc; page := meta_page metadata; source := meta_source metadata |}.

(** One pass of the loop that fills [context_parts] and [citations]. *)
Definition context_step (acc : list string * list Chunk)
    (item : nat * (string * Metadata)) : list string * list Chunk :=
  let '(i, (doc, metadata)) := item in
  (acc.1 ++ [source_label i doc], acc.2 ++ [citation_of doc metadata]).

Definition build_context (docs : list string) (metas : list Metadata)
    : list string * list Chunk :=
  foldl context_step ([], []) (enumerate (zip docs metas)).

Definition build_prompt (context question : string) : string :=
  "Based on the following context from documents, answer the question. If the answer is not in the context, say so."
  +:+ nl +:+ nl +:+ "Context:" +:+ nl +:+ context +:+ nl +:+ nl
  +:+ "Question: " +:+ question +:+ nl +:+ nl
  +:+ "Answer (cite sources using [Source N] notation):".

(** The prompt sent for a retrieved result. *)
Definition prompt_for (docs : list string) (metas : list Metadata)
    (question : string) : string :=
  build_prompt (Py.join (nl +:+ nl) (build_context docs metas).1) question.

(** The [try] block around the Ollama call. *)
Definition call_ollama (prompt : string) : result string :=
  match ollama prompt with
  | Timeout cause | NonSuccess cause | Malformed cause =>
      Err (HTTPException 500 ("Error calling Ollama: " +:+ cause))
  | Payload fields => Ok (default "" (fields !! "response"))
  end.

Definition ask_question (request : QuestionRequest) : Handler AnswerResponse :=
  fun w => (w,
    embeddings ← encode [question request];
    question_embedding ← first_item embeddings;
    results ← query (collection w) question_embedding (top_k request);
    docs ← first_item (documents results);
    if bool_decide (docs = [])
    then Err (HTTPException 404 "No documents found. Please upload PDFs first.")
    else
      metas ← first_item (metadatas results);
      let '(context_parts, cites) := build_context docs metas in
      let context := Py.join (nl +:+ nl) context_parts in
      let prompt := build_prompt context (question request) in
      answer ← call_ollama prompt;
      Ok {| answer := answer; citations := cites |}).

End Service.

Arguments files {Embedding} w.
Arguments collection {Embedding} w.
Arguments uuids_drawn {Embedding} w.
Arguments entry_id {Embedding} e.
Arguments entry_embedding {Embedding} e.
Arguments entry_document {Embedding} e.
Arguments entry_metadata {Embedding} e.

(** The error kinds of the design, as the code raises them. *)
Definition UnsupportedFormat : exn :=
  HTTPException 400 "Only PDF files are allowed".
Definition ExtractionError (cause : string) : exn :=
  HTTPException 400 ("Error reading PDF: " +:+ cause).
Definition NoDocumentsIndexed : exn :=
  HTTPException 404 "No documents found. Please upload PDFs first.".
Definition GenerationError (cause : string) : exn :=
  HTTPException 500 ("Error calling Ollama: " +:+ cause).

(** ** Vocabulary of the statements *)

(** The sub-chunks the ingestion pipeline cuts a page text into. The
    [Err] branch is never taken, see [chunk_text_default]. *)
Definition page_sub_chunks (t : string) : list string :=
  match chunk_text t 500 50 with
  | Ok cs => cs
  | Err _ => []
  end.

(** The page chunk of the page with index [i] (from 0) and text [t]. *)
Definition page_chunk_of (name : string) (i : nat) (t : string) : Chunk :=
  {| text := t; page := Z.of_nat i + 1; source := name |}.

Definition non_blank (pc : Chunk) : Prop :=
  Py.truthy (Py.strip (text pc)) = true.

#[global] Instance non_blank_dec (pc : Chunk) : Decision (non_blank pc).
Proof. unfold non_blank. apply _. Defined.

(** The page chunks of a document all of whose pages extract: the
    non-blank pages, each with its 1-based page number. *)
Definition non_blank_pages (name : string) (texts : list string)
    : list Chunk :=
  filter non_blank (imap (page_chunk_of name) texts).

(** The name under which an uploaded file is stored and cited. *)
Definition stored_name (file : UploadFile) : string :=
  path_name (path_join UPLOAD_DIR (filename file)).

(** What the index keeps of an entry besides its id and vector. *)
Definition stored_view {Embedding} (e : Entry Embedding)
    : string * Metadata :=
  (entry_document e, entry_metadata e).

(** The documents and metadata a page chunk contributes to the index:
    each sub-chunk of its text, with its page number and source. *)
Definition page_contribution (pc : Chunk) : list (string * Metadata) :=
  map (fun c => (c, {| meta_page := page pc; meta_source := source pc |}))
      (page_sub_chunks (text pc)).

(** The pages of a document that are ingested: those with a non-blank
    text, in order. *)
Definition ingested_texts (texts : list string) : list string :=
  filter (fun t => Py.truthy (Py.strip t) = true) texts.

(** The contract the design gives the embedder: one vector per text. *)
Definition one_vector_per_text {Embedding}
    (encode : list string -> result (list Embedding)) : Prop :=
  forall ts, exists es, encode ts = Ok es /\ length es = length ts.

(** What a run of [upload_pdf] needs from the file system and from the
    index: the file system lets the upload be written, and the index
    takes the batch made of the given documents and metadata, with the
    ids drawn next and the vectors the embedder gives for these
    documents. *)
Definition write_accepted {Embedding}
    (open_rejects : gmap string Document -> string -> option exn)
    (file : UploadFile) (w : World Embedding) : Prop :=
  open_rejects (files w) (path_join UPLOAD_DIR (filename file)) = None.

Definition batch_accepted {Embedding}
    (encode : list string -> result (list Embedding)) (uuid4 : nat -> string)
    (add_rejects : list (Entry Embedding) -> list Embedding -> list string ->
                   list Metadata -> list string -> option exn)
    (w : World Embedding) (contribution : list (string * Metadata)) : Prop :=
  forall es,
    encode (map fst contribution) = Ok es ->
    add_rejects (collection w) es (map fst contribution)
      (map snd contribution)
      (fresh_ids Embedding uuid4 w (length contribution))
    = None.

(** ** Stand-ins for the collaborators, for concrete runs *)

Module Demo.

Definition encode (ts : list string) : result (list nat) :=
  Ok (map String.length ts).

(** A file system in which a path is the file it spells, and which has
    the upload directory and no directory below it. *)
Definition resolve (path : string) : string := path.

Definition open_rejects (files : gmap string Document) (path : string)
    : option exn :=
  if String.prefix "/app/uploads/" path
     && no_slash (String.substring 13 (String.length path - 13) path)
  then None
  else Some (Exception ("[Errno 2] No such file or directory: '"
                        +:+ path +:+ "'")).

(** An index that, like the deployed one, refuses a batch without ids
    and takes any other. *)
Definition add_rejects (entries : list (Entry nat)) (es : list nat)
    (ds : list string) (ms : list Metadata) (ids : list string)
    : option exn :=
  match ids with
  | [] => Some (ValueError "Expected IDs to be a non-empty list")
  | _ => None
  end.

Definition uuid4 (k : nat) : string := "id-" +:+ Py.str_of_int (Z.of_nat k).

(** An index that answers with its first [k] entries. *)
Definition query (entries : list (Entry nat)) (v : nat) (k : Z)
    : result QueryResult :=
  let hits := take (Z.to_nat k) entries in
  Ok {| documents := [map entry_document hits];
        metadatas := [map entry_metadata hits] |}.

Definition ollama_ok (prompt : string) : BackendOutcome :=
  Payload {[ "response" := "It is cited in [Source 1]." ]}.

Definition ollama_timeout (prompt : string) : BackendOutcome :=
  Timeout "timed out".

Definition ollama_bad_status (prompt : string) : BackendOutcome :=
  NonSuccess "Server error '500 Internal Server Error'".

Definition ollama_not_json (prompt : string) : BackendOutcome :=
  Malformed "Expecting value: line 1 column 1 (char 0)".

Definition ollama_no_field (prompt : string) : BackendOutcome :=
  Payload {[ "error" := "model not found" ]}.

Definition empty_world : World nat :=
  {| files := ∅; collection := []; uuids_drawn := 0 |}.

(** [n] copies of the word "w", separated by single spaces. *)
Definition repeated_words (n : nat) : string :=
  Py.join " " (replicate n "w").

Definition two_pages : UploadFile :=
  {| filename := "report.pdf";
     content := Pages [PageText (repeated_words 600);
                       PageText (repeated_words 10)] |}.

Definition blank_pages : UploadFile :=
  {| filename := "scan.pdf"; content := Pages [PageText "  "; PageText ""] |}.

Definition text_file : UploadFile :=
  {| filename := "notes.txt"; content := Pages [PageText "hello world"] |}.

Definition broken_pages : UploadFile :=
  {| filename := "broken.pdf";
     content := Pages [PageText "first page"; PageRaises "bad xref"] |}.

Definition short_pdf : UploadFile :=
  {| filename := "a.pdf";
     content := Pages [PageText "alpha beta"; PageText " "; PageText "gamma"] |}.

Definition nested_name : UploadFile :=
  {| filename := "sub/a.pdf"; content := Pages [PageText "alpha beta"] |}.

(** The index after [short_pdf] is ingested, a request against it and
    the result the stand-in index returns for it. *)
Definition indexed_world : World nat :=
  (upload_pdf nat encode uuid4 resolve open_rejects add_rejects short_pdf
     empty_world).1.

Definition request : QuestionRequest :=
  {| question := "what is alpha?"; top_k := 2 |}.

Definition docs : list string := ["alpha beta"; "gamma"].

Definition metas : list Metadata :=
  [{| meta_page := 1; meta_source := "a.pdf" |};
   {| meta_page := 3; meta_source := "a.pdf" |}].

Definition results : QueryResult :=
  {| documents := [docs]; metadatas := [metas] |}.

End Demo.

(** ** The statistics endpoint *)

(** [os.getenv(key, fallback)] on the environment the process starts in. *)
Definition getenv (env : gmap string string) (key fallback : string)
    : string :=
  default fallback (env !! key).

Definition MODEL_NAME (env : gmap string string) : string :=
  getenv env "MODEL_NAME" "llama3:8b-instruct".

Record StatsResponse : Type :=
  { indexed_chunks : nat; model : string; embedding_model : string }.

(** [collection.count()] is the number of entries of the collection. *)
Definition get_stats {Embedding} (env : gmap string string)
    : Handler Embedding StatsResponse :=
  fun w => (w, Ok {| indexed_chunks := length (collection w);
                     model := MODEL_NAME env;
                     embedding_model := "all-MiniLM-L6-v2" |}).

(** ** Vocabulary of the further statements *)

(** A run of the upload handler on one file after the other; a failed
    upload leaves the world it reached and the run goes on. *)
Definition upload_all {Embedding}
    (encode : list string -> result (list Embedding)) (uuid4 : nat -> string)
    (resolve : string -> string)
    (open_rejects : gmap string Document -> string -> option exn)
    (add_rejects : list (Entry Embedding) -> list Embedding -> list string ->
                   list Metadata -> list string -> option exn)
    (uploads : list UploadFile) (w : World Embedding) : World Embedding :=
  foldl (fun w file =>
           (upload_pdf Embedding encode uuid4 resolve open_rejects
              add_rejects file w).1)
        w uploads.

(** What every entry written by [upload_pdf] looks like: a chunk of one
    to 500 tokens, a page number from 1 on, and as source a bare file
    name that ends in ".pdf". *)
Definition well_formed_entry {Embedding} (e : Entry Embedding) : Prop :=
  (1 <= length (tokens (entry_document e)) <= 500)%nat
  /\ 1 <= meta_page (entry_metadata e)
  /\ no_slash (meta_source (entry_metadata e)) = true
  /\ Py.endswith (meta_source (entry_metadata e)) ".pdf" = true.

(** The ids of the collection are pairwise distinct and were all drawn
    from [uuid4] before. *)
Definition ids_fresh {Embedding} (uuid4 : nat -> string)
    (w : World Embedding) : Prop :=
  NoDup (map entry_id (collection w))
  /\ forall e, e ∈ collection w ->
       exists j, (j < uuids_drawn w)%nat /\ entry_id e = uuid4 j.

(** Page numbers grow along a list of page chunks. *)
Definition pages_increase (page_chunks : list Chunk) : Prop :=
  forall i j pc pc',
    (i < j)%nat -> page_chunks !! i = Some pc -> page_chunks !! j = Some pc' ->
    page pc < page pc'.

(** The characters [str] of an [int] is made of, sign apart. *)
Definition is_digit (c : ascii) : bool :=
  let n := N_of_ascii c in ((48 <=? n) && (n <=? 57))%N.

Fixpoint all_digits (s : string) : bool :=
  match s with
  | EmptyString => true
  | String c s' => is_digit c && all_digits s'
  end.

(** An index whose result for a query is made of documents and metadata
    it holds. *)
Definition returns_stored {Embedding} (entries : list (Entry Embedding))
    (docs : list string) (metas : list Metadata) : Prop :=
  forall i d m,
    docs !! i = Some d -> metas !! i = Some m ->
    exists e, e ∈ entries /\ entry_document e = d /\ entry_metadata e = m.

(** * Properties *)

(** ** The primitives on concrete values *)

Example split_runs : Py.split "  hello   world " = ["hello"; "world"].
Proof. reflexivity. Qed.

Example split_blank : Py.split "   " = [].
Proof. reflexivity. Qed.

Example strip_both : Py.strip "  a b  " = "a b".
Proof. reflexivity. Qed.

Example range_up : Py.range 0 10 4 = Ok [0; 4; 8].
Proof. reflexivity. Qed.

Example range_down : Py.range 0 10 (-1) = Ok [].
Proof. reflexivity. Qed.

Example slice_clipped : Py.slice [1; 2; 3; 4; 5] 3 10 = [4; 5].
Proof. reflexivity. Qed.

Example slice_from_end : Py.slice [1; 2; 3; 4; 5] 1 (-1) = [2; 3; 4].
Proof. reflexivity. Qed.

Example endswith_pdf :
  Py.endswith "report.pdf" ".pdf" = true
  /\ Py.endswith "report.pdf.txt" ".pdf" = false.
Proof. split; reflexivity. Qed.

Example path_name_upload :
  path_name (path_join UPLOAD_DIR "a.pdf") = "a.pdf".
Proof. reflexivity. Qed.

Example chunk_text_windows_3_2 :
  chunk_text "a b  c d" 3 2 = Ok ["a b c"; "b c d"; "c d"; "d"].
Proof. reflexivity. Qed.

Example chunk_text_negative_slice :
  chunk_text "a b c d" (-1) (-3) = Ok ["a b c"].
Proof. reflexivity. Qed.

Example source_label_first : source_label 0 "alpha" = "[Source 1] alpha".
Proof. reflexivity. Qed.

(** ** Strings *)

Lemma sapp_nil_l (s : string) : "" +:+ s = s.
Proof. reflexivity. Qed.

Lemma sapp_cons (c : ascii) (s t : string) :
  String c s +:+ t = String c (s +:+ t).
Proof. reflexivity. Qed.

Lemma sapp_nil_r (s : string) : s +:+ "" = s.
Proof. induction s as [|c s IH]; [done|]. by rewrite sapp_cons, IH. Qed.

Lemma sapp_assoc (s t u : string) : (s +:+ t) +:+ u = s +:+ t +:+ u.
Proof. induction s as [|c s IH]; [done|]. by rewrite !sapp_cons, IH. Qed.

Lemma truthy_app_l (s t : string) :
  Py.truthy s = true -> Py.truthy (s +:+ t) = true.
Proof. by destruct s. Qed.

Lemma no_space_app (s t : string) :
  Py.no_space (s +:+ t) = Py.no_space s && Py.no_space t.
Proof.
  induction s as [|c s IH]; [done|].
  rewrite sapp_cons. simpl. rewrite IH. by destruct (Py.is_space c).
Qed.

Lemma truthy_snoc (s : string) (c : ascii) :
  Py.truthy (s +:+ String c "") = true.
Proof. by destruct s. Qed.

(** Every item [split] returns is a word. *)
Lemma split_from_words (s cur : string) :
  Py.no_space cur = true ->
  Forall (fun w => Py.is_word w = true) (Py.split_from cur s).
Proof.
  revert cur. induction s as [|c s IH]; intros cur Hcur; simpl.
  - destruct (Py.truthy cur) eqn:Ht; [|constructor].
    constructor; [|constructor]. unfold Py.is_word. by rewrite Ht, Hcur.
  - destruct (Py.is_space c) eqn:Hc.
    + destruct (Py.truthy cur) eqn:Ht; [|by apply IH].
      constructor; [|by apply IH]. unfold Py.is_word. by rewrite Ht, Hcur.
    + apply IH. rewrite no_space_app, Hcur. simpl. by rewrite Hc.
Qed.

Lemma split_words (t : string) :
  Forall (fun w => Py.is_word w = true) (Py.split t).
Proof. by apply split_from_words. Qed.

(** Scanning a whitespace-free prefix only extends the current word. *)
Lemma split_from_app_word (w cur rest : string) :
  Py.no_space w = true ->
  Py.split_from cur (w +:+ rest) = Py.split_from (cur +:+ w) rest.
Proof.
  revert cur. induction w as [|c w IH]; intros cur Hw.
  - by rewrite sapp_nil_l, sapp_nil_r.
  - simpl in Hw. apply andb_true_iff in Hw as [Hc Hw].
    apply negb_true_iff in Hc.
    rewrite sapp_cons. simpl. rewrite Hc, IH by done.
    by rewrite sapp_assoc, sapp_cons, sapp_nil_l.
Qed.

(** Joining words with single spaces and splitting again gives the words
    back. *)
Lemma split_join (ws : list string) :
  Forall (fun w => Py.is_word w = true) ws ->
  Py.split (Py.join " " ws) = ws.
Proof.
  unfold Py.split. induction ws as [|w ws IH]; intros Hws; [done|].
  apply Forall_cons in Hws as [Hw Hws].
  unfold Py.is_word in Hw. apply andb_true_iff in Hw as [Ht Hn].
  destruct ws as [|w2 ws].
  - simpl. rewrite <- (sapp_nil_r w) at 1.
    rewrite split_from_app_word, sapp_nil_l by done. simpl. by rewrite Ht.
  - change (Py.join " " (w :: w2 :: ws))
      with (w +:+ " " +:+ Py.join " " (w2 :: ws)).
    rewrite split_from_app_word, sapp_nil_l by done.
    change (" " +:+ Py.join " " (w2 :: ws))
      with (String " " (Py.join " " (w2 :: ws))).
    simpl Py.split_from at 1. rewrite Ht.
    f_equal. by apply IH.
Qed.

Lemma join_truthy (ws : list string) :
  ws <> [] -> Forall (fun w => Py.is_word w = true) ws ->
  Py.truthy (Py.join " " ws) = true.
Proof.
  destruct ws as [|w ws]; [done|]. intros _ Hws.
  apply Forall_cons in Hws as [Hw _].
  unfold Py.is_word in Hw. apply andb_true_iff in Hw as [Ht _].
  destruct ws; [done|]. by apply truthy_app_l.
Qed.

(** A text is blank for [strip] exactly when [split] finds no word. *)
Lemma lstrip_truthy (s : string) :
  Py.truthy (Py.lstrip s) = negb (Py.all_space s).
Proof.
  induction s as [|c s IH]; [done|]. simpl.
  by destruct (Py.is_space c).
Qed.

Lemma rstrip_truthy (s : string) :
  Py.truthy (Py.rstrip s) = negb (Py.all_space s).
Proof.
  induction s as [|c s IH]; [done|]. simpl.
  destruct (Py.rstrip s); simpl in *.
  - destruct (Py.all_space s); [|done]. by destruct (Py.is_space c).
  - destruct (Py.all_space s); [done|]. by rewrite andb_false_r.
Qed.

Lemma all_space_lstrip (s : string) :
  Py.all_space (Py.lstrip s) = Py.all_space s.
Proof.
  induction s as [|c s IH]; [done|]. simpl.
  destruct (Py.is_space c) eqn:Hc; [done|]. simpl. by rewrite Hc.
Qed.

Lemma strip_truthy (s : string) :
  Py.truthy (Py.strip s) = negb (Py.all_space s).
Proof. unfold Py.strip. by rewrite rstrip_truthy, all_space_lstrip. Qed.

Lemma split_from_nil (s cur : string) :
  Py.split_from cur s = [] <-> cur = "" /\ Py.all_space s = true.
Proof.
  revert cur. induction s as [|c s IH]; intros cur; simpl.
  - destruct cur; simpl; naive_solver.
  - destruct (Py.is_space c) eqn:Hc; simpl.
    + destruct cur as [|a cur]; simpl; [rewrite IH|]; naive_solver.
    + rewrite IH. split; [|naive_solver]. intros [H _]. by destruct cur.
Qed.

Lemma strip_truthy_split (t : string) :
  Py.truthy (Py.strip t) = true <-> Py.split t <> [].
Proof.
  rewrite strip_truthy. unfold Py.split. rewrite split_from_nil.
  destruct (Py.all_space t); naive_solver.
Qed.

(** ** Slices and ranges *)

(** A slice with non-negative bounds is a clipped window. *)
Lemma slice_window {A} (l : list A) (i size : nat) :
  Py.slice l (Z.of_nat i) (Z.of_nat i + Z.of_nat size) = take size (drop i l).
Proof.
  unfold Py.slice, Py.clip.
  destruct (Z.ltb_spec (Z.of_nat i) 0) as [?|_]; [lia|].
  destruct (Z.ltb_spec (Z.of_nat i + Z.of_nat size) 0) as [?|_]; [lia|].
  destruct (decide (i <= length l)%nat) as [Hi|Hi].
  - replace (Z.to_nat (Z.of_nat i `min` Z.of_nat (length l))) with i by lia.
    rewrite <- (take_ge (drop i l) (length l - i)) at 2
      by (rewrite length_drop; lia).
    rewrite take_take. f_equal. lia.
  - rewrite !drop_ge by lia. by rewrite !take_nil.
Qed.

(** With a positive step, [range(0, n, step)] lists the multiples of the
    step below [n]. *)
Lemma range_multiples (n step : nat) :
  (0 < step)%nat ->
  Py.range 0 (Z.of_nat n) (Z.of_nat step)
  = Ok (map (fun k : nat => Z.of_nat (k * step)) (seq 0 (window_count n step))).
Proof.
  intros Hstep. unfold Py.range, Py.range_length.
  destruct (Z.eqb_spec (Z.of_nat step) 0) as [?|_]; [lia|].
  destruct (Z.ltb_spec 0 (Z.of_nat step)) as [_|?]; [|lia].
  f_equal. replace (window_count n step) with
    (Z.to_nat (if 0 <? Z.of_nat n
               then (Z.of_nat n - 0 - 1) / Z.of_nat step + 1 else 0)).
  - apply map_ext. intros k. lia.
  - destruct n as [|n']; [done|].
    destruct (Z.ltb_spec 0 (Z.of_nat (S n'))) as [_|?]; [|lia].
    simpl window_count.
    replace (Z.of_nat (S n') - 0 - 1) with (Z.of_nat n') by lia.
    rewrite <- Nat2Z.inj_div. lia.
Qed.

Lemma window_count_bound (n step k : nat) :
  (0 < step)%nat -> (k < window_count n step)%nat <-> (k * step < n)%nat.
Proof.
  intros Hstep. destruct n as [|n']; simpl; [lia|].
  pose proof (Nat.div_mod_eq n' step) as Hdm.
  pose proof (Nat.mod_upper_bound n' step ltac:(lia)) as Hmod.
  split; intros H.
  - assert (k <= n' / step)%nat as Hk by lia.
    apply (Nat.mul_le_mono_r _ _ step) in Hk. nia.
  - apply Nat.lt_succ_r. apply Nat.div_le_lower_bound; [lia|]. nia.
Qed.

(** ** The chunker *)

Section Chunker.

Variable text : string.
Variables size step : nat.
Hypothesis size_pos : (0 < size)%nat.
Hypothesis step_pos : (0 < step)%nat.

#[local] Abbreviation words := (Py.split text).

Lemma window_tokens_words (k : nat) :
  Forall (fun w => Py.is_word w = true) (window_tokens words size step k).
Proof.
  unfold window_tokens.
  apply Forall_take, Forall_drop, split_words.
Qed.

Lemma window_tokens_nonempty (k : nat) :
  (k * step < length words)%nat -> window_tokens words size step k <> [].
Proof.
  intros Hk Hnil. apply (f_equal length) in Hnil.
  unfold window_tokens in Hnil. rewrite length_take, length_drop in Hnil.
  simpl in Hnil. lia.
Qed.

(** The loop appends one chunk per offset: no window is empty. *)
Lemma chunk_loop (ks : list nat) (acc : list string) :
  Forall (fun k => (k * step < length words)%nat) ks ->
  foldl (chunk_step words (Z.of_nat size)) acc
        (map (fun k : nat => Z.of_nat (k * step)) ks)
  = acc ++ map (fun k => Py.join " " (window_tokens words size step k)) ks.
Proof.
  revert acc. induction ks as [|k ks IH]; intros acc Hks; simpl.
  - by rewrite app_nil_r.
  - apply Forall_cons in Hks as [Hk Hks].
    rewrite IH by done. unfold chunk_step.
    rewrite slice_window. fold (window_tokens words size step k).
    rewrite join_truthy
      by auto using window_tokens_nonempty, window_tokens_words.
    by rewrite <- app_assoc.
Qed.

(** The chunks of a valid configuration, in closed form. *)
Lemma chunk_text_windows :
  chunk_text text (Z.of_nat size) (Z.of_nat size - Z.of_nat step)
  = Ok (map (fun k => Py.join " " (window_tokens words size step k))
            (seq 0 (window_count (length words) step))).
Proof.
  unfold chunk_text. fold words.
  replace (Z.of_nat size - (Z.of_nat size - Z.of_nat step))
    with (Z.of_nat step) by lia.
  rewrite range_multiples by done. simpl.
  rewrite chunk_loop; [done|].
  apply Forall_forall. intros k Hk. apply elem_of_seq in Hk.
  apply window_count_bound; [done|lia].
Qed.

Hypothesis step_le_size : (step <= size)%nat.

#[local] Abbreviation chunks :=
  (map (fun k => Py.join " " (window_tokens words size step k))
       (seq 0 (window_count (length words) step))).

Lemma chunks_lookup (k : nat) (c : string) :
  chunks !! k = Some c <->
  (k * step < length words)%nat
  /\ c = Py.join " " (window_tokens words size step k).
Proof.
  rewrite list_lookup_fmap_Some. split.
  - intros (j & -> & Hj). apply lookup_seq in Hj as [-> Hj].
    by apply window_count_bound in Hj.
  - intros [Hk ->]. exists k. split; [done|].
    apply lookup_seq. split; [done|]. by apply window_count_bound.
Qed.

Lemma tokens_window (k : nat) :
  tokens (Py.join " " (window_tokens words size step k))
  = window_tokens words size step k.
Proof. apply split_join, window_tokens_words. Qed.

(** Coverage: token [j] lies in the window that starts at the multiple of
    the step just below [j]. *)
Lemma chunks_cover (w : string) :
  w ∈ words -> exists c, c ∈ chunks /\ w ∈ tokens c.
Proof.
  intros Hw. apply list_elem_of_lookup in Hw as [j Hj].
  pose proof (lookup_lt_Some _ _ _ Hj) as Hlt.
  pose proof (Nat.div_mod_eq j step) as Hdm.
  pose proof (Nat.mod_upper_bound j step ltac:(lia)) as Hmod.
  set (k := (j / step)%nat) in *.
  exists (Py.join " " (window_tokens words size step k)). split.
  - apply list_elem_of_lookup. exists k. apply chunks_lookup. split; [nia|done].
  - rewrite tokens_window. apply list_elem_of_lookup.
    exists (j `mod` step)%nat. unfold window_tokens.
    rewrite lookup_take_lt by lia. rewrite lookup_drop.
    replace (k * step + j `mod` step)%nat with j by lia. done.
Qed.

(** Continuity: after a full window, the next one starts with its last
    [size - step] tokens. *)
Lemma chunks_share (k : nat) (c c' : string) :
  chunks !! k = Some c -> chunks !! S k = Some c' ->
  length (tokens c) = size ->
  shares (size - step) c c'.
Proof.
  intros [_ ->]%chunks_lookup [_ ->]%chunks_lookup.
  unfold shares. rewrite !tokens_window. intros Hfull.
  exists (take step (window_tokens words size step k)),
         (drop step (window_tokens words size step k)),
         (drop (size - step) (window_tokens words size step (S k))).
  split; [by rewrite take_drop|]. split.
  - rewrite <- (take_drop (size - step) (window_tokens words size step (S k)))
      at 1.
    f_equal. unfold window_tokens. rewrite take_take.
    replace ((size - step) `min` size)%nat with (size - step)%nat by lia.
    replace (S k * step)%nat with (k * step + step)%nat by lia.
    rewrite <- drop_drop.
    rewrite (take_drop_commute (drop (k * step) words) (size - step) step).
    by replace (step + (size - step))%nat with size by lia.
  - rewrite length_drop. fold words in Hfull. lia.
Qed.

(** When the text has more tokens than a window holds, the first two
    chunks exist and the first one is full. *)
Lemma chunks_first_pair :
  (size < length words)%nat ->
  exists c c', chunks !! 0%nat = Some c /\ chunks !! 1%nat = Some c'
               /\ length (tokens c) = size.
Proof.
  intros Hlong.
  exists (Py.join " " (window_tokens words size step 0)),
         (Py.join " " (window_tokens words size step 1)).
  split; [apply chunks_lookup; split; [lia|done]|].
  split; [apply chunks_lookup; split; [lia|done]|].
  rewrite tokens_window. unfold window_tokens.
  rewrite length_take, length_drop. simpl. lia.
Qed.

End Chunker.

(** C1 fails as stated: with [chunk_size < overlap] the chunker returns the
    empty chunk sequence and raises nothing. *)
Lemma chunk_text_negative_step_returns :
  1 <= 2 /\ chunk_text "a b c" 1 2 = Ok []
  /\ ~ is_err (chunk_text "a b c" 1 2).
Proof. split; [lia|]. split; [reflexivity|]. intros H. exact H. Qed.

(** C1, amended: for every text, [chunk_size = overlap] makes the chunker
    fail before any chunk is produced, with the [ValueError] that [range]
    raises for a zero step, and [chunk_size < overlap] makes it return the
    empty chunk sequence without an error. The function is total, so
    neither case loops. *)
Theorem chunk_text_invalid_configuration (text : string)
    (chunk_size overlap : Z) :
  chunk_size <= overlap ->
  (chunk_size = overlap ->
   chunk_text text chunk_size overlap
   = Err (ValueError "range() arg 3 must not be zero"))
  /\ (chunk_size < overlap -> chunk_text text chunk_size overlap = Ok []).
Proof.
  intros _. unfold chunk_text, Py.range, Py.range_length. split; intros H.
  - destruct (Z.eqb_spec (chunk_size - overlap) 0) as [_|?]; [done|lia].
  - destruct (Z.eqb_spec (chunk_size - overlap) 0) as [?|_]; [lia|].
    destruct (Z.ltb_spec 0 (chunk_size - overlap)) as [?|_]; [lia|].
    destruct (Z.ltb_spec (Z.of_nat (length (Py.split text))) 0) as [?|_];
      [lia|done].
Qed.

Lemma chunk_text_invalid_configuration_witness :
  chunk_text "a b c" 2 2 = Err (ValueError "range() arg 3 must not be zero")
  /\ chunk_text "a b c" 1 2 = Ok [].
Proof.
  split.
  - apply (chunk_text_invalid_configuration "a b c" 2 2); [lia|reflexivity].
  - apply (chunk_text_invalid_configuration "a b c" 1 2); lia.
Defined.

(** C2 fails as stated: with [chunk_size = 3] and [overlap = 2] the text
    "a b c d" has four tokens and four chunks, and the last two chunks,
    "c d" and "d", do not share two tokens. *)
Lemma chunk_text_tail_overlap_short :
  0 <= 2 < 3
  /\ (3 < length (tokens "a b c d"))%nat
  /\ exists chunks,
       chunk_text "a b c d" 3 2 = Ok chunks
       /\ chunks !! 2%nat = Some "c d" /\ chunks !! 3%nat = Some "d"
       /\ ~ shares 2 "c d" "d".
Proof.
  split; [lia|]. split; [simpl; lia|].
  exists ["a b c"; "b c d"; "c d"; "d"].
  split; [reflexivity|]. split; [reflexivity|]. split; [reflexivity|].
  intros (before & shared & after & _ & Hnext & Hlen).
  apply (f_equal length) in Hnext. rewrite length_app in Hnext.
  simpl in Hnext. lia.
Qed.

(** C2, amended: for every text and every pair with
    [chunk_size > overlap >= 0], the chunker returns chunks in which every
    token of the text appears; two consecutive chunks share exactly
    [overlap] tokens whenever the earlier one is a full window of
    [chunk_size] tokens; and when the text has more than [chunk_size]
    tokens the first two chunks are such a pair. *)
Theorem chunk_text_coverage_overlap (text : string) (chunk_size overlap : Z) :
  0 <= overlap < chunk_size ->
  exists chunks,
    chunk_text text chunk_size overlap = Ok chunks
    /\ (forall w, w ∈ tokens text ->
                  exists c, c ∈ chunks /\ w ∈ tokens c)
    /\ (forall k c c',
          chunks !! k = Some c -> chunks !! S k = Some c' ->
          Z.of_nat (length (tokens c)) = chunk_size ->
          shares (Z.to_nat overlap) c c')
    /\ (chunk_size < Z.of_nat (length (tokens text)) ->
        exists c c', chunks !! 0%nat = Some c /\ chunks !! 1%nat = Some c'
                     /\ shares (Z.to_nat overlap) c c').
Proof.
  intros Hvalid.
  set (size := Z.to_nat chunk_size). set (step := Z.to_nat (chunk_size - overlap)).
  assert (0 < size)%nat as Hsize by lia.
  assert (0 < step)%nat as Hstep by lia.
  assert (step <= size)%nat as Hle by lia.
  assert (Z.to_nat overlap = size - step)%nat as -> by lia.
  eexists. split.
  { replace chunk_size with (Z.of_nat size) by lia.
    replace overlap with (Z.of_nat size - Z.of_nat step) by lia.
    by apply chunk_text_windows. }
  split; [by apply chunks_cover|]. split.
  - intros k c c' Hc Hc' Hfull.
    apply (chunks_share text size step Hsize Hstep Hle k); [done..|lia].
  - intros Hlong.
    assert (size < length (Py.split text))%nat as Hlong'
      by (unfold tokens in Hlong; lia).
    destruct (chunks_first_pair text size step Hsize Hstep Hle Hlong')
      as (c & c' & Hc & Hc' & Hfull).
    exists c, c'. split; [done|]. split; [done|].
    by apply (chunks_share text size step Hsize Hstep Hle 0%nat).
Qed.

Lemma chunk_text_coverage_overlap_witness :
  exists chunks,
    chunk_text "a b c d" 3 2 = Ok chunks
    /\ (forall w, w ∈ tokens "a b c d" ->
                  exists c, c ∈ chunks /\ w ∈ tokens c)
    /\ (forall k c c',
          chunks !! k = Some c -> chunks !! S k = Some c' ->
          Z.of_nat (length (tokens c)) = 3 ->
          shares (Z.to_nat 2) c c')
    /\ (3 < Z.of_nat (length (tokens "a b c d")) ->
        exists c c', chunks !! 0%nat = Some c /\ chunks !! 1%nat = Some c'
                     /\ shares (Z.to_nat 2) c c').
Proof. apply (chunk_text_coverage_overlap "a b c d" 3 2). lia. Defined.

(** ** Paths and stored names *)

Lemma endswith_refl (s : string) : Py.endswith s s = true.
Proof.
  destruct s as [|c s]; [done|].
  cbn [Py.endswith]. by rewrite String.eqb_refl.
Qed.

Lemma endswith_app (a s suffix : string) :
  Py.endswith s suffix = true -> Py.endswith (a +:+ s) suffix = true.
Proof.
  intros Hs. induction a as [|c a IH]; [done|].
  rewrite sapp_cons. cbn [Py.endswith]. rewrite IH.
  by destruct (String.eqb _ suffix).
Qed.

Lemma no_slash_app (s t : string) :
  no_slash (s +:+ t) = no_slash s && no_slash t.
Proof.
  induction s as [|c s IH]; [done|].
  rewrite sapp_cons. simpl. rewrite IH. by destruct (Ascii.eqb c "/").
Qed.

(** A path without a slash is its own name. *)
Lemma name_from_plain (cur p : string) :
  no_slash p = true -> name_from cur p = cur +:+ p.
Proof.
  revert cur. induction p as [|c p IH]; intros cur Hp; simpl.
  - by rewrite sapp_nil_r.
  - simpl in Hp. apply andb_true_iff in Hp as [Hc Hp].
    apply negb_true_iff in Hc. rewrite Hc, IH by done.
    by rewrite sapp_assoc.
Qed.

(** What precedes a slash does not count. *)
Lemma name_from_after_slash (cur a b : string) :
  name_from cur (a +:+ String "/" b) = name_from "" b.
Proof.
  revert cur. induction a as [|c a IH]; intros cur; [done|].
  rewrite sapp_cons. simpl. by destruct (Ascii.eqb c "/").
Qed.

Lemma name_from_no_slash (cur p : string) :
  no_slash cur = true -> no_slash (name_from cur p) = true.
Proof.
  revert cur. induction p as [|c p IH]; intros cur Hcur; simpl; [done|].
  destruct (Ascii.eqb c "/") eqn:Hc; [by apply IH|].
  apply IH. rewrite no_slash_app, Hcur. simpl. by rewrite Hc.
Qed.

Lemma name_from_endswith (cur p suffix : string) :
  no_slash suffix = true -> Py.endswith p suffix = true ->
  Py.endswith (name_from cur p) suffix = true.
Proof.
  intros Hsuffix. revert cur.
  induction p as [|c p IH]; intros cur Hp.
  - simpl in Hp. destruct suffix; [|done]. simpl.
    clear. induction cur as [|a cur IH]; [done|]. done.
  - cbn [Py.endswith] in Hp.
    destruct (String.eqb (String c p) suffix) eqn:Heq.
    + apply String.eqb_eq in Heq. subst suffix.
      rewrite name_from_plain by done.
      apply endswith_app, endswith_refl.
    + simpl. destruct (Ascii.eqb c "/"); by apply IH.
Qed.

Lemma stored_name_no_slash (file : UploadFile) :
  no_slash (stored_name file) = true.
Proof. by apply name_from_no_slash. Qed.

Lemma stored_name_endswith (file : UploadFile) :
  Py.endswith (filename file) ".pdf" = true ->
  Py.endswith (stored_name file) ".pdf" = true.
Proof.
  intros Hname. apply name_from_endswith; [done|].
  unfold path_join. destruct (filename file) as [|c rest] eqn:Hf; [done|].
  assert (Py.endswith (UPLOAD_DIR +:+ "/" +:+ String c rest) ".pdf" = true)
    as Hjoined by (by apply endswith_app, endswith_app).
  destruct c as [[] [] [] [] [] [] [] []]; done.
Qed.

Lemma stored_name_plain (file : UploadFile) :
  no_slash (filename file) = true ->
  stored_name file = filename file.
Proof.
  intros Hplain. unfold stored_name, path_name, path_join.
  destruct (filename file) as [|c rest] eqn:Hf.
  - reflexivity.
  - assert (name_from "" (UPLOAD_DIR +:+ "/" +:+ String c rest)
            = String c rest) as Hjoined.
    { change (UPLOAD_DIR +:+ "/" +:+ String c rest)
        with (UPLOAD_DIR +:+ String "/" (String c rest)).
      rewrite name_from_after_slash. by rewrite name_from_plain. }
    simpl in Hplain. apply andb_true_iff in Hplain as [Hc _].
    destruct c as [[] [] [] [] [] [] [] []]; done.
Qed.

(** ** The ingestion pipeline *)

(** With the default parameters the chunker never fails. *)
Lemma chunk_text_default (t : string) :
  chunk_text t 500 50
  = Ok (map (fun k => Py.join " " (window_tokens (Py.split t) 500 450 k))
            (seq 0 (window_count (length (Py.split t)) 450))).
Proof. apply (chunk_text_windows t 500 450); lia. Qed.

Lemma chunk_text_page_sub_chunks (t : string) :
  chunk_text t 500 50 = Ok (page_sub_chunks t).
Proof. unfold page_sub_chunks. by rewrite chunk_text_default. Qed.

(** Every sub-chunk of a page holds at most 500 tokens. *)
Lemma page_sub_chunks_bounded (t c : string) :
  c ∈ page_sub_chunks t -> (length (tokens c) <= 500)%nat.
Proof.
  unfold page_sub_chunks. rewrite chunk_text_default.
  intros (k & -> & _)%list_elem_of_fmap.
  unfold tokens. rewrite split_join.
  - unfold window_tokens. rewrite length_take. lia.
  - apply Forall_take, Forall_drop, split_words.
Qed.

Lemma build_all_chunks_flat (page_chunks : list Chunk) :
  build_all_chunks page_chunks
  = Ok (page_chunks
          ≫= fun pc => sub_chunks pc (page_sub_chunks (text pc))).
Proof.
  induction page_chunks as [|pc rest IH]; [done|].
  cbn [build_all_chunks]. rewrite chunk_text_page_sub_chunks, IH. done.
Qed.

(** When no page raises, extraction keeps the non-blank pages, numbered
    from 1 by their position in the document. *)
Lemma extract_pages_texts (name : string) (n : nat) (texts : list string) :
  extract_pages name (Z.of_nat n) (PageText <$> texts)
  = inr (filter non_blank
           (imap (fun i => page_chunk_of name (n + i)) texts)).
Proof.
  revert n. induction texts as [|t texts IH]; intros n; [done|].
  simpl. replace (Z.of_nat n + 1) with (Z.of_nat (S n)) by lia.
  rewrite IH, filter_cons.
  assert (imap (fun i => page_chunk_of name (S n + i)) texts
          = imap ((fun i => page_chunk_of name (n + i)) ∘ S) texts) as ->.
  { apply imap_ext. intros i x _. simpl. f_equal. lia. }
  replace (n + 0)%nat with n by lia.
  assert ({| text := t; page := Z.of_nat (S n); source := name |}
          = page_chunk_of name n t) as ->.
  { unfold page_chunk_of. f_equal. lia. }
  destruct (decide (non_blank (page_chunk_of name n t))) as [H|H];
    unfold non_blank in H; simpl in H.
  - by rewrite H.
  - by destruct (Py.truthy (Py.strip t)).
Qed.

Lemma extract_pages_non_blank (name : string) (texts : list string) :
  extract_pages name 0 (PageText <$> texts)
  = inr (non_blank_pages name texts).
Proof. exact (extract_pages_texts name 0 texts). Qed.

(** A page that raises makes the whole extraction fail. *)
Lemma extract_pages_raises (name : string) (n : Z)
    (pages : list PageOutcome) (cause : string) :
  PageRaises cause ∈ pages ->
  exists cause', extract_pages name n pages = inl cause'.
Proof.
  revert n. induction pages as [|p pages IH]; intros n Hin.
  - by apply elem_of_nil in Hin.
  - destruct p as [t|c]; simpl; [|by eauto].
    apply elem_of_cons in Hin as [?|Hin]; [done|].
    destruct (IH (n + 1) Hin) as [cause' ->]. by eauto.
Qed.

(** A page of 600 words gives the windows [0:500) and [450:600); a page of
    10 words gives one window. *)
Lemma page_sub_chunks_600 (t : string) :
  length (tokens t) = 600%nat ->
  page_sub_chunks t
  = [Py.join " " (Py.slice (tokens t) 0 500);
     Py.join " " (Py.slice (tokens t) 450 600)].
Proof.
  unfold tokens. intros Hlen. unfold page_sub_chunks.
  rewrite chunk_text_default, Hlen.
  change (window_count 600 450) with 2%nat.
  cbn [seq map]. f_equal; [|f_equal]; f_equal.
  - symmetry. exact (slice_window (Py.split t) 0 500).
  - unfold window_tokens. change (1 * 450)%nat with 450%nat.
    transitivity (take 150 (drop 450 (Py.split t))).
    + rewrite !take_ge; [done|rewrite length_drop, Hlen..].
      * by apply Nat.leb_le.
      * by apply Nat.leb_le.
    + symmetry. exact (slice_window (Py.split t) 450 150).
Qed.

Lemma page_sub_chunks_10 (t : string) :
  length (tokens t) = 10%nat ->
  page_sub_chunks t = [Py.join " " (tokens t)].
Proof.
  unfold tokens. intros Hlen. unfold page_sub_chunks.
  rewrite chunk_text_default, Hlen.
  change (window_count 10 450) with 1%nat.
  cbn [seq map]. do 2 f_equal.
  unfold window_tokens. change (0 * 450)%nat with 0%nat.
  rewrite drop_0. apply take_ge. rewrite Hlen. by apply Nat.leb_le.
Qed.

Lemma tokens_non_blank (name : string) (i : nat) (t : string) :
  tokens t <> [] -> non_blank (page_chunk_of name i t).
Proof. intros H. unfold non_blank. simpl. by apply strip_truthy_split. Qed.

Lemma non_blank_pages_two (name t1 t2 : string) :
  tokens t1 <> [] -> tokens t2 <> [] ->
  non_blank_pages name [t1; t2]
  = [page_chunk_of name 0 t1; page_chunk_of name 1 t2].
Proof.
  intros H1 H2. unfold non_blank_pages. cbn [imap compose].
  rewrite filter_cons, decide_True by by apply tokens_non_blank.
  rewrite filter_cons, decide_True by by apply tokens_non_blank.
  done.
Qed.

Lemma non_blank_pages_member (name : string) (texts : list string)
    (pc : Chunk) :
  pc ∈ non_blank_pages name texts <->
  exists i : nat,
    texts !! i = Some (text pc) /\ page pc = Z.of_nat i + 1
    /\ source pc = name /\ Py.truthy (Py.strip (text pc)) = true.
Proof.
  unfold non_blank_pages. rewrite list_elem_of_filter, elem_of_lookup_imap.
  unfold non_blank. split.
  - intros (Hnb & i & t & -> & Hi). exists i. by simpl in *.
  - intros (i & Hi & Hpage & Hsource & Hnb). split; [done|].
    exists i, (text pc). split; [|done].
    destruct pc as [t p s]. unfold page_chunk_of. simpl in *. by subst.
Qed.

(** Every document and metadata pair of the contribution of a document
    is a sub-chunk of a non-blank page, with that page's number. *)
Lemma contribution_member (name : string) (texts : list string)
    (d : string) (m : Metadata) :
  (d, m) ∈ non_blank_pages name texts ≫= page_contribution ->
  exists (i : nat) (t : string),
    texts !! i = Some t /\ Py.truthy (Py.strip t) = true
    /\ d ∈ page_sub_chunks t
    /\ m = {| meta_page := Z.of_nat i + 1; meta_source := name |}.
Proof.
  intros Hin. apply list_elem_of_bind in Hin as (pc & Hin & Hpc).
  apply list_elem_of_fmap in Hin as (c & Heq & Hc).
  apply non_blank_pages_member in Hpc as (i & Hi & Hpage & Hsource & Hnb).
  injection Heq as -> ->. exists i, (text pc).
  by rewrite Hpage, Hsource.
Qed.

(** The texts of the page chunks are the ingested texts. *)
Lemma kept_texts (name : string) (n : nat) (texts : list string) :
  map text
    (filter non_blank (imap (fun i => page_chunk_of name (n + i)) texts))
  = ingested_texts texts.
Proof.
  revert n. induction texts as [|t texts IH]; intros n; [done|].
  cbn [imap]. unfold ingested_texts. rewrite !filter_cons.
  rewrite (imap_ext _ (fun i => page_chunk_of name (S n + i)))
    by (intros i x _; simpl; f_equal; lia).
  fold (ingested_texts texts).
  destruct (decide (non_blank _)) as [H|H]; unfold non_blank in H;
    simpl in H.
  - rewrite decide_True by done. cbn [map]. by rewrite IH.
  - rewrite decide_False by done. apply IH.
Qed.

Lemma non_blank_pages_texts (name : string) (texts : list string) :
  map text (non_blank_pages name texts) = ingested_texts texts.
Proof. exact (kept_texts name 0 texts). Qed.

Section Ingestion.

Variable Embedding : Type.
Variable encode : list string -> result (list Embedding).
Variable uuid4 : nat -> string.
Variable resolve : string -> string.
Variable open_rejects : gmap string Document -> string -> option exn.
Variable add_rejects :
  list (Entry Embedding) -> list Embedding -> list string ->
  list Metadata -> list string -> option exn.

#[local] Abbreviation upload :=
  (upload_pdf Embedding encode uuid4 resolve open_rejects add_rejects).
#[local] Abbreviation saved := (saved Embedding resolve).
#[local] Abbreviation drawn := (drawn Embedding resolve).
#[local] Abbreviation fresh_ids := (fresh_ids Embedding uuid4).
#[local] Abbreviation upload_batch := (upload_batch Embedding uuid4).
#[local] Abbreviation indexed := (indexed Embedding uuid4 resolve).
#[local] Abbreviation write_accepted := (write_accepted open_rejects).
#[local] Abbreviation batch_accepted :=
  (batch_accepted encode uuid4 add_rejects).

Lemma upload_pdf_unsupported (file : UploadFile) (w : World Embedding) :
  Py.endswith (filename file) ".pdf" = false ->
  upload file w = (w, Err UnsupportedFormat).
Proof. intros H. unfold upload_pdf. by rewrite H. Qed.

(** An upload the file system refuses to write ends there, with the
    world as it was. *)
Lemma upload_pdf_refused (file : UploadFile) (w : World Embedding) (e : exn) :
  Py.endswith (filename file) ".pdf" = true ->
  open_rejects (files w) (path_join UPLOAD_DIR (filename file)) = Some e ->
  upload file w = (w, Err e).
Proof.
  intros H Hopen. unfold upload_pdf. rewrite H.
  cbv [negb handler_bind write_file]. unfold mbind at 1.
  by rewrite Hopen.
Qed.

(** An upload with a supported name that the file system lets be
    written, step by step. *)
Lemma upload_pdf_supported (file : UploadFile) (w : World Embedding) :
  Py.endswith (filename file) ".pdf" = true ->
  write_accepted file w ->
  upload file w
  = match content file with
    | Unreadable cause => (saved file w, Err (ExtractionError cause))
    | Pages pages =>
        match extract_pages (stored_name file) 0 pages with
        | inl cause => (saved file w, Err (ExtractionError cause))
        | inr page_chunks =>
            let all_chunks :=
              page_chunks
                ≫= fun pc => sub_chunks pc (page_sub_chunks (text pc)) in
            match encode (map text all_chunks) with
            | Err e => (saved file w, Err e)
            | Ok embeddings =>
                match add_rejects (collection w) embeddings
                        (map text all_chunks)
                        (map chunk_metadata all_chunks)
                        (fresh_ids w (length all_chunks)) with
                | Some e => (drawn file w (length all_chunks), Err e)
                | None =>
                    (indexed file w embeddings all_chunks,
                     Ok {| message := "PDF indexed successfully";
                           chunks_added := length all_chunks |})
                end
            end
        end
    end.
Proof.
  intros H Hopen. unfold write_accepted in Hopen.
  unfold upload_pdf, indexed, drawn, saved, upload_batch, fresh_ids,
    stored_name.
  rewrite H.
  cbv [negb handler_bind write_file extract_text_from_pdf lift
       draw_ids collection_add mret handler_ret].
  unfold mbind at 1 2 3 4 5 6. rewrite Hopen.
  cbn [files collection uuids_drawn].
  rewrite lookup_insert_eq.
  destruct (content file) as [cause|pages]; [done|].
  destruct (extract_pages _ 0 pages) as [cause|pcs]; [done|].
  rewrite build_all_chunks_flat.
  destruct (encode _) as [es|e]; [|done].
  cbn [files collection uuids_drawn].
  by destruct (add_rejects _ _ _ _ _).
Qed.

(** Whatever the file system says, a failed upload leaves the index as
    it was, and a successful one went through every step. *)
Lemma upload_pdf_outcomes (file : UploadFile) (w : World Embedding) :
  (exists w' e, upload file w = (w', Err e) /\ collection w' = collection w)
  \/ (exists pages page_chunks es,
        content file = Pages pages
        /\ extract_pages (stored_name file) 0 pages = inr page_chunks
        /\ let all_chunks :=
             page_chunks
               ≫= fun pc => sub_chunks pc (page_sub_chunks (text pc)) in
           encode (map text all_chunks) = Ok es
           /\ upload file w
              = (indexed file w es all_chunks,
                 Ok {| message := "PDF indexed successfully";
                       chunks_added := length all_chunks |})).
Proof.
  destruct (Py.endswith (filename file) ".pdf") eqn:Hname.
  2: { left. exists w, UnsupportedFormat. by rewrite upload_pdf_unsupported. }
  destruct (open_rejects (files w) (path_join UPLOAD_DIR (filename file)))
    as [e|] eqn:Hopen.
  { left. exists w, e. by rewrite (upload_pdf_refused file w e). }
  rewrite upload_pdf_supported by done.
  destruct (content file) as [cause|pages];
    [left; eexists _, _; split; reflexivity|].
  destruct (extract_pages (stored_name file) 0 pages) as [cause|pcs] eqn:Hex;
    [left; eexists _, _; split; reflexivity|].
  cbv zeta.
  destruct (encode _) as [es|e'] eqn:Hes;
    [|left; eexists _, _; split; reflexivity].
  destruct (add_rejects _ _ _ _ _);
    [left; eexists _, _; split; reflexivity|].
  right. by exists pages, pcs, es.
Qed.

(** What the index keeps of a batch: the documents paired with their
    metadata, as far as ids and vectors were supplied. *)
Lemma batch_view (es : list Embedding) (ds : list string)
    (ms : list Metadata) (ids : list string) :
  map stored_view (batch Embedding es ds ms ids)
  = take (length ids `min` length es) (zip ds ms).
Proof.
  unfold batch. revert es ds ms.
  induction ids as [|i ids IH]; intros es ds ms; [done|].
  destruct es as [|e es]; [done|].
  destruct ds as [|d ds]; [done|].
  destruct ms as [|m ms]; [done|].
  simpl. f_equal. apply IH.
Qed.

Lemma all_chunks_view (all_chunks : list Chunk) :
  zip (map text all_chunks) (map chunk_metadata all_chunks)
  = map (fun c => (text c, chunk_metadata c)) all_chunks.
Proof. induction all_chunks as [|c cs IH]; [done|]. simpl. by rewrite IH. Qed.

Lemma sub_chunks_view (page_chunks : list Chunk) :
  map (fun c => (text c, chunk_metadata c))
      (page_chunks ≫= fun pc => sub_chunks pc (page_sub_chunks (text pc)))
  = page_chunks ≫= page_contribution.
Proof.
  induction page_chunks as [|pc pcs IH]; [done|].
  rewrite !bind_cons, map_app, IH. f_equal.
  unfold sub_chunks, page_contribution. rewrite map_map. done.
Qed.

(** The three lists of the batch, read off the contribution. *)
Lemma sub_chunks_batch (page_chunks : list Chunk) :
  let all_chunks :=
    page_chunks ≫= fun pc => sub_chunks pc (page_sub_chunks (text pc)) in
  let contribution := page_chunks ≫= page_contribution in
  map text all_chunks = map fst contribution
  /\ map chunk_metadata all_chunks = map snd contribution
  /\ length all_chunks = length contribution.
Proof.
  intros all_chunks contribution. unfold contribution.
  rewrite <- sub_chunks_view. fold all_chunks.
  rewrite !map_map, length_map. done.
Qed.

Lemma sub_chunks_count (page_chunks : list Chunk) :
  length (page_chunks ≫= fun pc => sub_chunks pc (page_sub_chunks (text pc)))
  = sum_list_with (fun pc => length (page_sub_chunks (text pc))) page_chunks.
Proof.
  induction page_chunks as [|pc pcs IH]; [done|].
  rewrite bind_cons, length_app, IH. unfold sub_chunks.
  by rewrite length_map.
Qed.

(** The documents of the batch, page by page. *)
Lemma sub_chunks_texts (page_chunks : list Chunk) :
  map text
    (page_chunks ≫= fun pc => sub_chunks pc (page_sub_chunks (text pc)))
  = concat (map page_sub_chunks (map text page_chunks)).
Proof.
  induction page_chunks as [|pc pcs IH]; [done|].
  rewrite bind_cons, map_app, IH. cbn [map concat]. f_equal.
  unfold sub_chunks. rewrite map_map. apply map_id.
Qed.

Lemma length_fresh_ids (w : World Embedding) (n : nat) :
  length (fresh_ids w n) = n.
Proof. unfold fresh_ids. by rewrite length_map, length_seq. Qed.

(** The view of the batch of an upload, given one vector per text. *)
Lemma upload_batch_view (w : World Embedding) (es : list Embedding)
    (page_chunks : list Chunk) :
  let all_chunks :=
    page_chunks ≫= fun pc => sub_chunks pc (page_sub_chunks (text pc)) in
  length es = length all_chunks ->
  map stored_view (upload_batch w es all_chunks)
  = page_chunks ≫= page_contribution.
Proof.
  intros all_chunks Hes. unfold upload_batch. rewrite batch_view.
  rewrite Hes, length_fresh_ids, all_chunks_view.
  unfold all_chunks. rewrite <- sub_chunks_view.
  apply take_ge. rewrite length_map. fold all_chunks. lia.
Qed.

(** Every entry of a batch holds one of the documents offered. *)
Lemma upload_batch_documents (w : World Embedding) (es : list Embedding)
    (all_chunks : list Chunk) (e : Entry Embedding) :
  e ∈ upload_batch w es all_chunks -> entry_document e ∈ map text all_chunks.
Proof.
  intros He. apply (list_elem_of_fmap_2 stored_view) in He.
  unfold upload_batch in He. rewrite batch_view in He.
  apply (subseteq_take _ _ _) in He. unfold stored_view in He.
  by apply elem_of_zip_l in He.
Qed.

(** The page chunks come from pages of the document. *)
Lemma extract_pages_from_document (name : string) (n : Z)
    (pages : list PageOutcome) (page_chunks : list Chunk) (pc : Chunk) :
  extract_pages name n pages = inr page_chunks -> pc ∈ page_chunks ->
  PageText (text pc) ∈ pages.
Proof.
  revert n page_chunks.
  induction pages as [|p pages IH]; intros n pcs Hex Hin; simpl in Hex.
  - inversion Hex; subst. by apply elem_of_nil in Hin.
  - destruct p as [t|c]; [|done].
    destruct (extract_pages name (n + 1) pages) as [c|rest] eqn:Hrest; [done|].
    destruct (Py.truthy (Py.strip t)); inversion Hex; subst.
    + apply elem_of_cons in Hin as [->|Hin]; [left|right; eauto].
    + right. eauto.
Qed.

(** Extraction returns only when every page gave a text. *)
Lemma extract_pages_all_text (name : string) (n : Z)
    (pages : list PageOutcome) (page_chunks : list Chunk) :
  extract_pages name n pages = inr page_chunks ->
  exists texts, pages = PageText <$> texts.
Proof.
  revert n page_chunks.
  induction pages as [|p pages IH]; intros n pcs Hex; simpl in Hex.
  - by exists [].
  - destruct p as [t|c]; [|done].
    destruct (extract_pages name (n + 1) pages) as [c|rest] eqn:Hrest; [done|].
    destruct (IH _ _ Hrest) as [texts ->]. by exists (t :: texts).
Qed.

(** Shared core of the ingestion statements: when the name is supported,
    the file is written, every page extracts, the embedder gives one
    vector per text and the index takes the batch, the upload succeeds,
    reports the number of sub-chunks of the non-blank pages, and appends
    them to the index. *)
Lemma upload_pdf_all_pages_extract (file : UploadFile) (w : World Embedding)
    (texts : list string) :
  one_vector_per_text encode ->
  Py.endswith (filename file) ".pdf" = true ->
  content file = Pages (PageText <$> texts) ->
  let page_chunks := non_blank_pages (stored_name file) texts in
  let all_chunks :=
    page_chunks ≫= fun pc => sub_chunks pc (page_sub_chunks (text pc)) in
  write_accepted file w ->
  batch_accepted w (page_chunks ≫= page_contribution) ->
  exists es,
    upload file w
    = (indexed file w es all_chunks,
       Ok {| message := "PDF indexed successfully";
             chunks_added := length all_chunks |})
    /\ map stored_view (upload_batch w es all_chunks)
       = page_chunks ≫= page_contribution.
Proof.
  intros Hencode Hname Hcontent page_chunks all_chunks Hwrite Haccepts.
  rewrite upload_pdf_supported by done.
  rewrite Hcontent.
  rewrite extract_pages_non_blank. fold page_chunks.
  cbv zeta. fold all_chunks.
  destruct (Hencode (map text all_chunks)) as (es & Hvectors & Hes).
  rewrite Hvectors. rewrite length_map in Hes.
  destruct (sub_chunks_batch page_chunks) as (Hds & Hms & Hlen).
  fold all_chunks in Hds, Hms, Hlen.
  assert (add_rejects (collection w) es (map text all_chunks)
            (map chunk_metadata all_chunks)
            (fresh_ids w (length all_chunks)) = None) as ->.
  { rewrite Hds, Hms, Hlen. apply Haccepts. by rewrite <- Hds. }
  exists es. split; [done|]. by apply upload_batch_view.
Qed.

(** C6: the code has no branch for a document without chunks. When the
    name is supported, the file is written and extraction yields no page
    chunk (every page extracts and is blank, or there is no page), the
    upload hands the empty batch to the embedder and to the index, and
    the index alone decides the outcome: if it refuses the batch, the
    upload fails with the index's exception instead of reporting
    [chunks_added = 0]; only if it takes the batch does the upload
    succeed with [chunks_added = 0]. The index is unchanged either
    way. *)
Theorem upload_pdf_zero_chunks (file : UploadFile) (w : World Embedding)
    (pages : list PageOutcome) (es : list Embedding) :
  Py.endswith (filename file) ".pdf" = true ->
  write_accepted file w ->
  content file = Pages pages ->
  extract_pages (stored_name file) 0 pages = inr [] ->
  encode [] = Ok es ->
  (forall e,
     add_rejects (collection w) es [] [] [] = Some e ->
     exists w', upload file w = (w', Err e) /\ collection w' = collection w)
  /\ (add_rejects (collection w) es [] [] [] = None ->
      exists w',
        upload file w
        = (w', Ok {| message := "PDF indexed successfully";
                     chunks_added := 0 |})
        /\ collection w' = collection w).
Proof.
  intros Hname Hwrite Hcontent Hnone Hencode.
  rewrite upload_pdf_supported by done.
  rewrite Hcontent, Hnone. cbn [mbind list_bind map length].
  rewrite Hencode. unfold fresh_ids. cbn [seq map]. split.
  - intros e ->. by eexists.
  - intros ->. eexists. split; [done|]. simpl. apply app_nil_r.
Qed.

(** C7: when every page of a supported document extracts, the file is
    written, the embedder gives one vector per text and the index takes
    the batch, the upload returns as [chunks_added] the sum, over the
    non-blank pages, of the number of sub-chunks [chunk_text] cuts the
    page into, and the entries it appends to the index are, in order,
    the sub-chunks of each non-blank page. Every entry stored holds a
    sub-chunk of some page [i] (from 0) of the document, with the page
    number [i + 1] and, as source, the name the file is stored under:
    the uploaded file name when it has no directory part. *)
Theorem upload_pdf_counts_and_provenance (file : UploadFile)
    (w : World Embedding) (texts : list string) :
  one_vector_per_text encode ->
  Py.endswith (filename file) ".pdf" = true ->
  content file = Pages (PageText <$> texts) ->
  let page_chunks := non_blank_pages (stored_name file) texts in
  write_accepted file w ->
  batch_accepted w (page_chunks ≫= page_contribution) ->
  exists w' added,
    upload file w
    = (w', Ok {| message := "PDF indexed successfully";
                 chunks_added :=
                   sum_list_with
                     (fun pc => length (page_sub_chunks (text pc)))
                     page_chunks |})
    /\ collection w' = collection w ++ added
    /\ map stored_view added = page_chunks ≫= page_contribution
    /\ (forall pc, pc ∈ page_chunks ->
          chunk_text (text pc) 500 50 = Ok (page_sub_chunks (text pc)))
    /\ (forall e, e ∈ added ->
          exists (i : nat) (t : string),
            texts !! i = Some t
            /\ Py.truthy (Py.strip t) = true
            /\ entry_document e ∈ page_sub_chunks t
            /\ meta_page (entry_metadata e) = Z.of_nat i + 1
            /\ meta_source (entry_metadata e) = stored_name file)
    /\ (no_slash (filename file) = true -> stored_name file = filename file).
Proof.
  intros Hencode Hname Hcontent page_chunks Hwrite Haccepts.
  destruct (upload_pdf_all_pages_extract file w texts
              Hencode Hname Hcontent Hwrite Haccepts) as (es & Hrun & Hview).
  rewrite Hrun. fold page_chunks. rewrite sub_chunks_count.
  eexists (indexed file w es _), (upload_batch w es _).
  split; [done|]. split; [done|]. split; [exact Hview|].
  split; [intros pc _; apply chunk_text_page_sub_chunks|].
  split; [|apply stored_name_plain].
  intros e He.
  assert ((entry_document e, entry_metadata e)
            ∈ non_blank_pages (stored_name file) texts ≫= page_contribution)
    as Hin by (rewrite <- Hview; by apply (list_elem_of_fmap_2 stored_view)).
  apply contribution_member in Hin as (i & t & Hi & Hnb & Hd & Hm).
  exists i, t. by rewrite Hm.
Qed.

(** C9: an upload that fails with [UnsupportedFormat] or with
    [ExtractionError] leaves the index exactly as it was. *)
Theorem upload_pdf_failure_keeps_index (file : UploadFile)
    (w w' : World Embedding) (e : exn) :
  upload file w = (w', Err e) ->
  e = UnsupportedFormat \/ (exists cause, e = ExtractionError cause) ->
  collection w' = collection w.
Proof.
  intros Hrun _.
  destruct (upload_pdf_outcomes file w)
    as [(w'' & e' & Hfail & Hkeep)|(pages & pcs & es & _ & _ & _ & Hok)].
  - rewrite Hfail in Hrun. by inversion Hrun; subst.
  - cbv zeta in Hok. rewrite Hok in Hrun. inversion Hrun.
Qed.

(** The two failures of C9 as the handler raises them: an unsupported
    name fails before the file is written, and a page that raises fails
    after it is written and before anything reaches the index. *)
Lemma upload_pdf_page_raises (file : UploadFile) (w : World Embedding)
    (pages : list PageOutcome) (cause : string) :
  Py.endswith (filename file) ".pdf" = true ->
  write_accepted file w ->
  content file = Pages pages ->
  PageRaises cause ∈ pages ->
  exists cause', upload file w = (saved file w, Err (ExtractionError cause')).
Proof.
  intros Hname Hwrite Hcontent Hin. rewrite upload_pdf_supported by done.
  rewrite Hcontent.
  destruct (extract_pages_raises (stored_name file) 0 pages cause Hin)
    as [cause' ->].
  by exists cause'.
Qed.

(** C10: [upload_pdf] takes no chunking parameter. In a successful
    upload every page gave a text, and the pipeline ran [chunk_text]
    with [chunk_size = 500] and [overlap = 50] on the text of every
    ingested page, that is, every non-blank page: the documents it
    appends to the index are, in page order, the chunks [chunk_text]
    returns with these parameters for each ingested page, and
    [chunks_added] is their number. So every stored chunk holds at most
    500 tokens. The embedder is assumed to give one vector per text. *)
Theorem upload_pdf_chunk_parameters (file : UploadFile)
    (w w' : World Embedding) (response : UploadResponse) :
  one_vector_per_text encode ->
  upload file w = (w', Ok response) ->
  exists texts per_page added,
    content file = Pages (PageText <$> texts)
    /\ Forall2 (fun t chunks => chunk_text t 500 50 = Ok chunks)
               (ingested_texts texts) per_page
    /\ collection w' = collection w ++ added
    /\ map entry_document added = concat per_page
    /\ chunks_added response = length (concat per_page)
    /\ Forall (fun e => (length (tokens (entry_document e)) <= 500)%nat)
              added.
Proof.
  intros Hencode Hrun.
  destruct (upload_pdf_outcomes file w)
    as [(w'' & e' & Hfail & _)|(pages & pcs & es & Hcontent & Hex & Hok)].
  { rewrite Hfail in Hrun. inversion Hrun. }
  cbv zeta in Hok. destruct Hok as [Hes Hok].
  rewrite Hok in Hrun. inversion Hrun; subst w' response. clear Hrun Hok.
  destruct (extract_pages_all_text _ _ _ _ Hex) as [texts ->].
  rewrite extract_pages_non_blank in Hex. injection Hex as <-.
  destruct (Hencode (map text
              (non_blank_pages (stored_name file) texts
                 ≫= fun pc => sub_chunks pc (page_sub_chunks (text pc)))))
    as (es' & Hes' & Hlen).
  rewrite Hes in Hes'. injection Hes' as <-. rewrite length_map in Hlen.
  set (page_chunks := non_blank_pages (stored_name file) texts) in *.
  set (all_chunks :=
         page_chunks ≫= fun pc => sub_chunks pc (page_sub_chunks (text pc)))
    in *.
  exists texts, (map page_sub_chunks (ingested_texts texts)),
    (upload_batch w es all_chunks).
  split; [done|]. split.
  { apply Forall2_fmap_r, Forall_Forall2_diag, Forall_forall.
    intros t _. apply chunk_text_page_sub_chunks. }
  split; [done|].
  assert (map entry_document (upload_batch w es all_chunks)
          = concat (map page_sub_chunks (ingested_texts texts))) as Hdocs.
  { rewrite <- (non_blank_pages_texts (stored_name file)).
    fold page_chunks. rewrite <- sub_chunks_texts. fold all_chunks.
    destruct (sub_chunks_batch page_chunks) as (Hds & _ & _).
    cbv zeta in Hds. fold all_chunks in Hds. rewrite Hds.
    rewrite <- (upload_batch_view w es page_chunks) by done.
    rewrite map_map. done. }
  split; [exact Hdocs|]. split.
  { cbn [chunks_added]. rewrite <- Hdocs, length_map.
    unfold upload_batch, batch.
    rewrite length_zip_with, !length_zip, !length_map, length_fresh_ids.
    lia. }
  apply Forall_forall. intros e He.
  apply upload_batch_documents in He.
  apply list_elem_of_fmap in He as (c & Hdoc & Hc).
  apply list_elem_of_bind in Hc as (pc & Hc & Hpc).
  unfold sub_chunks in Hc. apply list_elem_of_fmap in Hc as (d & -> & Hd).
  simpl in Hdoc. rewrite Hdoc. by eapply page_sub_chunks_bounded.
Qed.

(** C8: a supported two-page document whose first page has 600 words and
    whose second page has 10 words is cut, with [chunk_size = 500] and
    [overlap = 50], into the windows [0:500) and [450:600) of page 1 and
    the single window of page 2; when the file is written, the embedder
    gives one vector per text and the index takes the batch of these
    three chunks, the upload stores them with their page numbers and
    returns [chunks_added = 3]. *)
Theorem upload_pdf_two_pages (file : UploadFile) (w : World Embedding)
    (t1 t2 : string) :
  one_vector_per_text encode ->
  Py.endswith (filename file) ".pdf" = true ->
  content file = Pages [PageText t1; PageText t2] ->
  length (tokens t1) = 600%nat ->
  length (tokens t2) = 10%nat ->
  let c1 := Py.join " " (Py.slice (tokens t1) 0 500) in
  let c2 := Py.join " " (Py.slice (tokens t1) 450 600) in
  let c3 := Py.join " " (tokens t2) in
  let on_page n := {| meta_page := n; meta_source := stored_name file |} in
  write_accepted file w ->
  batch_accepted w [(c1, on_page 1); (c2, on_page 1); (c3, on_page 2)] ->
  chunk_text t1 500 50 = Ok [c1; c2]
  /\ chunk_text t2 500 50 = Ok [c3]
  /\ exists w' added,
       upload file w
       = (w', Ok {| message := "PDF indexed successfully";
                    chunks_added := 3 |})
       /\ collection w' = collection w ++ added
       /\ map stored_view added
          = [(c1, on_page 1); (c2, on_page 1); (c3, on_page 2)].
Proof.
  intros Hencode Hname Hcontent Hlen1 Hlen2 c1 c2 c3 on_page Hwrite Haccepts.
  assert (tokens t1 <> []) as Hne1 by (intros E; by rewrite E in Hlen1).
  assert (tokens t2 <> []) as Hne2 by (intros E; by rewrite E in Hlen2).
  pose proof (page_sub_chunks_600 t1 Hlen1) as Hsub1.
  pose proof (page_sub_chunks_10 t2 Hlen2) as Hsub2.
  fold c1 c2 in Hsub1. fold c3 in Hsub2.
  split; [by rewrite chunk_text_page_sub_chunks, Hsub1|].
  split; [by rewrite chunk_text_page_sub_chunks, Hsub2|].
  assert (non_blank_pages (stored_name file) [t1; t2] ≫= page_contribution
          = [(c1, on_page 1); (c2, on_page 1); (c3, on_page 2)]) as Hbatch.
  { rewrite non_blank_pages_two by done. rewrite !bind_cons.
    unfold page_contribution. cbn [page_chunk_of text]. by rewrite Hsub1, Hsub2. }
  rewrite <- Hbatch in Haccepts.
  destruct (upload_pdf_all_pages_extract file w [t1; t2]
              Hencode Hname Hcontent Hwrite Haccepts) as (es & Hrun & Hview).
  rewrite Hrun. clear Hrun.
  eexists (indexed file w es _), (upload_batch w es _).
  split; [|split; [reflexivity|]].
  - do 2 f_equal. rewrite sub_chunks_count.
    rewrite non_blank_pages_two by done.
    cbn [sum_list_with page_chunk_of text]. by rewrite Hsub1, Hsub2.
  - by rewrite Hview.
Qed.

End Ingestion.

(** Concrete runs of the ingestion statements, with the stand-in
    collaborators. *)

Lemma demo_one_vector_per_text : one_vector_per_text Demo.encode.
Proof. intros ts. eexists. split; [reflexivity|]. apply length_map. Qed.

(** The stand-in index takes every batch with an id. *)
Lemma demo_batch_accepted (w : World nat)
    (contribution : list (string * Metadata)) :
  contribution <> [] ->
  batch_accepted Demo.encode Demo.uuid4 Demo.add_rejects w contribution.
Proof.
  intros Hne es _. destruct contribution as [|x xs]; [done|]. done.
Qed.

(** The run behind C6: with an index that, like the deployed one,
    refuses a batch without ids, the upload of a document whose pages
    are all blank ends with the index's exception. *)
Lemma upload_pdf_zero_chunks_witness :
  exists w',
    upload_pdf nat Demo.encode Demo.uuid4 Demo.resolve Demo.open_rejects
      Demo.add_rejects Demo.blank_pages Demo.empty_world
    = (w', Err (ValueError "Expected IDs to be a non-empty list"))
    /\ collection w' = collection Demo.empty_world.
Proof.
  refine (proj1 (upload_pdf_zero_chunks nat Demo.encode Demo.uuid4
                   Demo.resolve Demo.open_rejects Demo.add_rejects
                   Demo.blank_pages Demo.empty_world
                   [PageText "  "; PageText ""] [] _ _ _ _ _) _ _);
    reflexivity.
Defined.

(** The premise on the file system is needed: under a name with a
    directory part that the upload directory does not have, [open]
    raises and the upload ends there. *)
Remark nested_name_is_refused :
  upload_pdf nat Demo.encode Demo.uuid4 Demo.resolve Demo.open_rejects
    Demo.add_rejects Demo.nested_name Demo.empty_world
  = (Demo.empty_world,
     Err (Exception
            "[Errno 2] No such file or directory: '/app/uploads/sub/a.pdf'")).
Proof. vm_compute. reflexivity. Qed.

Lemma upload_pdf_counts_and_provenance_witness :
  let texts := ["alpha beta"; " "; "gamma"] in
  let page_chunks := non_blank_pages (stored_name Demo.short_pdf) texts in
  exists w' added,
    upload_pdf nat Demo.encode Demo.uuid4 Demo.resolve Demo.open_rejects
      Demo.add_rejects Demo.short_pdf Demo.empty_world
    = (w', Ok {| message := "PDF indexed successfully";
                 chunks_added :=
                   sum_list_with
                     (fun pc => length (page_sub_chunks (text pc)))
                     page_chunks |})
    /\ collection w' = collection Demo.empty_world ++ added
    /\ map stored_view added = page_chunks ≫= page_contribution
    /\ (forall pc, pc ∈ page_chunks ->
          chunk_text (text pc) 500 50 = Ok (page_sub_chunks (text pc)))
    /\ (forall e, e ∈ added ->
          exists (i : nat) (t : string),
            texts !! i = Some t
            /\ Py.truthy (Py.strip t) = true
            /\ entry_document e ∈ page_sub_chunks t
            /\ meta_page (entry_metadata e) = Z.of_nat i + 1
            /\ meta_source (entry_metadata e) = stored_name Demo.short_pdf)
    /\ (no_slash (filename Demo.short_pdf) = true ->
        stored_name Demo.short_pdf = filename Demo.short_pdf).
Proof.
  apply (upload_pdf_counts_and_provenance nat Demo.encode Demo.uuid4
           Demo.resolve Demo.open_rejects Demo.add_rejects Demo.short_pdf
           Demo.empty_world ["alpha beta"; " "; "gamma"]).
  - exact demo_one_vector_per_text.
  - reflexivity.
  - reflexivity.
  - reflexivity.
  - apply demo_batch_accepted. vm_compute. discriminate.
Defined.

Lemma upload_pdf_two_pages_witness :
  let t1 := Demo.repeated_words 600 in
  let t2 := Demo.repeated_words 10 in
  let c1 := Py.join " " (Py.slice (tokens t1) 0 500) in
  let c2 := Py.join " " (Py.slice (tokens t1) 450 600) in
  let c3 := Py.join " " (tokens t2) in
  let on_page n :=
    {| meta_page := n; meta_source := stored_name Demo.two_pages |} in
  chunk_text t1 500 50 = Ok [c1; c2]
  /\ chunk_text t2 500 50 = Ok [c3]
  /\ exists w' added,
       upload_pdf nat Demo.encode Demo.uuid4 Demo.resolve Demo.open_rejects
         Demo.add_rejects Demo.two_pages Demo.empty_world
       = (w', Ok {| message := "PDF indexed successfully";
                    chunks_added := 3 |})
       /\ collection w' = collection Demo.empty_world ++ added
       /\ map stored_view added
          = [(c1, on_page 1); (c2, on_page 1); (c3, on_page 2)].
Proof.
  apply (upload_pdf_two_pages nat Demo.encode Demo.uuid4 Demo.resolve
           Demo.open_rejects Demo.add_rejects
           Demo.two_pages Demo.empty_world (Demo.repeated_words 600)
           (Demo.repeated_words 10)).
  - exact demo_one_vector_per_text.
  - reflexivity.
  - reflexivity.
  - vm_compute. reflexivity.
  - vm_compute. reflexivity.
  - reflexivity.
  - by apply demo_batch_accepted.
Defined.

Lemma upload_pdf_failure_keeps_index_witness :
  collection
    (upload_pdf nat Demo.encode Demo.uuid4 Demo.resolve Demo.open_rejects
       Demo.add_rejects Demo.text_file Demo.indexed_world).1
  = collection Demo.indexed_world
  /\ collection
       (upload_pdf nat Demo.encode Demo.uuid4 Demo.resolve Demo.open_rejects
          Demo.add_rejects Demo.broken_pages Demo.indexed_world).1
     = collection Demo.indexed_world.
Proof.
  split.
  - apply (upload_pdf_failure_keeps_index nat Demo.encode Demo.uuid4
             Demo.resolve Demo.open_rejects
             Demo.add_rejects Demo.text_file Demo.indexed_world _
             UnsupportedFormat).
    + reflexivity.
    + left. reflexivity.
  - apply (upload_pdf_failure_keeps_index nat Demo.encode Demo.uuid4
             Demo.resolve Demo.open_rejects
             Demo.add_rejects Demo.broken_pages Demo.indexed_world _
             (ExtractionError "bad xref")).
    + vm_compute. reflexivity.
    + right. exists "bad xref". reflexivity.
Defined.

Lemma upload_pdf_chunk_parameters_witness :
  exists texts per_page added,
    content Demo.short_pdf = Pages (PageText <$> texts)
    /\ Forall2 (fun t chunks => chunk_text t 500 50 = Ok chunks)
               (ingested_texts texts) per_page
    /\ collection
         (upload_pdf nat Demo.encode Demo.uuid4 Demo.resolve
            Demo.open_rejects Demo.add_rejects Demo.short_pdf
            Demo.empty_world).1
       = collection Demo.empty_world ++ added
    /\ map entry_document added = concat per_page
    /\ chunks_added
         {| message := "PDF indexed successfully"; chunks_added := 2 |}
       = length (concat per_page)
    /\ Forall (fun e => (length (tokens (entry_document e)) <= 500)%nat)
              added.
Proof.
  apply (upload_pdf_chunk_parameters nat Demo.encode Demo.uuid4
           Demo.resolve Demo.open_rejects
           Demo.add_rejects Demo.short_pdf Demo.empty_world _
           {| message := "PDF indexed successfully"; chunks_added := 2 |}).
  - exact demo_one_vector_per_text.
  - vm_compute. reflexivity.
Defined.

(** ** Retrieval and grounding *)

(** The loop over [enumerate(zip(docs, metas))] labels item [i] with
    [i + 1] and cites it at position [i]. *)
Lemma context_loop (items : list (string * Metadata)) (n : nat)
    (acc : list string * list Chunk) :
  foldl context_step acc (imap (fun i x => ((n + i)%nat, x)) items)
  = (acc.1 ++ imap (fun i x => source_label (n + i) x.1) items,
     acc.2 ++ map (fun x => citation_of x.1 x.2) items).
Proof.
  revert n acc. induction items as [|[d m] items IH]; intros n acc.
  - simpl. rewrite !app_nil_r. by destruct acc.
  - cbn [imap foldl].
    rewrite (imap_ext _ (fun i x => ((S n + i)%nat, x)))
      by (intros i x _; simpl; f_equal; lia).
    rewrite IH. cbn [context_step fst snd map].
    rewrite <- !app_assoc. replace (n + 0)%nat with n by lia.
    f_equal. f_equal. simpl. f_equal. apply imap_ext.
    intros i x _. simpl. f_equal. lia.
Qed.

Lemma build_context_closed (docs : list string) (metas : list Metadata) :
  build_context docs metas
  = (imap (fun i x => source_label i x.1) (zip docs metas),
     map (fun x => citation_of x.1 x.2) (zip docs metas)).
Proof. unfold build_context, enumerate. by rewrite (context_loop _ 0 ([], [])). Qed.

Lemma build_context_lookup (docs : list string) (metas : list Metadata)
    (i : nat) (d : string) (m : Metadata) :
  docs !! i = Some d -> metas !! i = Some m ->
  (build_context docs metas).1 !! i = Some (source_label i d)
  /\ (build_context docs metas).2 !! i = Some (citation_of d m).
Proof.
  intros Hd Hm. rewrite build_context_closed. simpl.
  assert (zip docs metas !! i = Some (d, m)) as Hz.
  { apply lookup_zip_with_Some. eauto. }
  rewrite list_lookup_imap, list_lookup_fmap, Hz. done.
Qed.

Lemma build_context_length (docs : list string) (metas : list Metadata) :
  length (build_context docs metas).2 = (length docs `min` length metas)%nat
  /\ length (build_context docs metas).1
     = (length docs `min` length metas)%nat.
Proof.
  rewrite build_context_closed. simpl.
  by rewrite length_map, length_imap, length_zip_with.
Qed.

(** With one metadata per document, the labels run over the documents
    and the citations pair each document with its metadata. *)
Lemma imap_zip_fst {A B C} (f : nat -> A -> C) (xs : list A) (ys : list B) :
  (length xs <= length ys)%nat ->
  imap (fun i p => f i p.1) (zip xs ys) = imap f xs.
Proof.
  revert f ys. induction xs as [|x xs IH]; intros f [|y ys] Hlen;
    simpl in *; try done; try lia.
  f_equal. apply (IH (f ∘ S)). lia.
Qed.

Lemma citations_zip (docs : list string) (metas : list Metadata) :
  map (fun x => citation_of x.1 x.2) (zip docs metas)
  = zip_with (fun d m => {| text := d; page := meta_page m;
                            source := meta_source m |}) docs metas.
Proof.
  revert metas. induction docs as [|d docs IH]; intros [|m metas]; try done.
  simpl. f_equal. apply IH.
Qed.

(** Every part of a joined string is in it. *)
Lemma join_contains (sep : string) (ws : list string) (i : nat) (x : string) :
  ws !! i = Some x ->
  exists before after, Py.join sep ws = before +:+ x +:+ after.
Proof.
  revert i. induction ws as [|w ws IH]; intros i Hi; [done|].
  destruct i as [|i]; simpl in Hi.
  - injection Hi as ->. destruct ws as [|w' ws].
    + exists "", "". by rewrite sapp_nil_r.
    + by exists "", (sep +:+ Py.join sep (w' :: ws)).
  - destruct (IH i Hi) as (b & a & Heq). destruct ws as [|w' ws]; [done|].
    exists (w +:+ sep +:+ b), a.
    change (Py.join sep (w :: w' :: ws))
      with (w +:+ sep +:+ Py.join sep (w' :: ws)).
    rewrite Heq. by rewrite !sapp_assoc.
Qed.

Section Retrieval.

Variable Embedding : Type.
Variable encode : list string -> result (list Embedding).
Variable query : list (Entry Embedding) -> Embedding -> Z -> result QueryResult.
Variable ollama : string -> BackendOutcome.

#[local] Abbreviation ask := (ask_question Embedding encode query ollama).

(** The handler up to the check on the retrieved documents. *)
Lemma ask_question_retrieved (request : QuestionRequest)
    (w : World Embedding) (v : Embedding) (vs : list Embedding)
    (results : QueryResult) (docs : list string) (ds : list (list string)) :
  encode [question request] = Ok (v :: vs) ->
  query (collection w) v (top_k request) = Ok results ->
  documents results = docs :: ds ->
  ask request w
  = (w, if bool_decide (docs = []) then Err NoDocumentsIndexed
        else
          metas ← first_item (metadatas results);
          answer ← call_ollama ollama (prompt_for docs metas (question request));
          Ok {| answer := answer;
                citations := (build_context docs metas).2 |}).
Proof.
  intros Hv Hq Hdocs. unfold ask_question. rewrite Hv.
  unfold mbind at 1, result_bind at 1. simpl first_item.
  unfold mbind at 1, result_bind at 1. rewrite Hq.
  unfold mbind at 1, result_bind at 1. rewrite Hdocs. simpl first_item.
  unfold mbind at 1, result_bind at 1.
  destruct (bool_decide (docs = [])); [done|].
  f_equal. destruct (first_item (metadatas results)) as [metas|e]; [|done].
  unfold mbind at 1 3, result_bind at 1 3, prompt_for.
  by destruct (build_context docs metas).
Qed.

(** The handler once the index has returned at least one document and a
    metadata list. *)
Lemma ask_question_grounded (request : QuestionRequest)
    (w : World Embedding) (v : Embedding) (vs : list Embedding)
    (results : QueryResult) (docs : list string) (ds : list (list string))
    (metas : list Metadata) (ms : list (list Metadata)) :
  encode [question request] = Ok (v :: vs) ->
  query (collection w) v (top_k request) = Ok results ->
  documents results = docs :: ds ->
  metadatas results = metas :: ms ->
  docs <> [] ->
  ask request w
  = (w, answer ← call_ollama ollama (prompt_for docs metas (question request));
        Ok {| answer := answer;
              citations := (build_context docs metas).2 |}).
Proof.
  intros Hv Hq Hdocs Hmetas Hne.
  rewrite (ask_question_retrieved request w v vs results docs ds) by done.
  rewrite bool_decide_false by done. by rewrite Hmetas.
Qed.

(** C3: when the index answers the query with a non-empty result list
    and one metadata per document, the handler consults the backend on
    the prompt spelled out below, whose context is the retrieved
    documents in the order of the index, document [i] (from 0) labelled
    "[Source i+1]"; what it returns carries as citation [i] the text,
    page and source of result [i]; there are as many citations as
    results, hence exactly [k] for [top_k = k] when the index returns
    [min k count] results and holds at least [k] entries. *)
Theorem ask_question_keeps_retrieval_order (request : QuestionRequest)
    (w : World Embedding) (v : Embedding) (vs : list Embedding)
    (results : QueryResult) (docs : list string) (ds : list (list string))
    (metas : list Metadata) (ms : list (list Metadata)) :
  encode [question request] = Ok (v :: vs) ->
  query (collection w) v (top_k request) = Ok results ->
  documents results = docs :: ds ->
  metadatas results = metas :: ms ->
  docs <> [] ->
  length metas = length docs ->
  let label (i : nat) (d : string) :=
    "[Source " +:+ Py.str_of_int (Z.of_nat i + 1) +:+ "] " +:+ d in
  let cites :=
    zip_with (fun d m => {| text := d; page := meta_page m;
                            source := meta_source m |}) docs metas in
  let prompt :=
    "Based on the following context from documents, answer the question. If the answer is not in the context, say so."
    +:+ nl +:+ nl +:+ "Context:" +:+ nl
    +:+ Py.join (nl +:+ nl) (imap label docs) +:+ nl +:+ nl
    +:+ "Question: " +:+ question request +:+ nl +:+ nl
    +:+ "Answer (cite sources using [Source N] notation):" in
  ask request w
  = (w, match ollama prompt with
        | Timeout cause | NonSuccess cause | Malformed cause =>
            Err (GenerationError cause)
        | Payload fields =>
            Ok {| answer := default "" (fields !! "response");
                  citations := cites |}
        end)
  /\ (forall i d,
        docs !! i = Some d ->
        exists before after, prompt = before +:+ label i d +:+ after)
  /\ (forall i d m,
        docs !! i = Some d -> metas !! i = Some m ->
        cites !! i
        = Some {| text := d; page := meta_page m; source := meta_source m |})
  /\ length cites = length docs
  /\ (forall k : nat,
        top_k request = Z.of_nat k ->
        length docs = (k `min` length (collection w))%nat ->
        (k <= length (collection w))%nat ->
        length cites = k).
Proof.
  intros Hv Hq Hdocs Hmetas Hne Hlen label cites prompt.
  assert (length cites = length docs) as Hcites
    by (unfold cites; rewrite length_zip_with; lia).
  split; [|split; [|split; [|split]]].
  - rewrite (ask_question_grounded request w v vs results docs ds metas ms)
      by done.
    unfold prompt_for, build_prompt, call_ollama.
    rewrite build_context_closed. cbn [fst snd].
    rewrite citations_zip. fold cites.
    rewrite (imap_zip_fst source_label) by lia.
    change (imap source_label docs) with (imap label docs). fold prompt.
    by destruct (ollama prompt).
  - intros i d Hd.
    destruct (join_contains (nl +:+ nl) (imap label docs) i (label i d))
      as (b & a & Heq); [by rewrite list_lookup_imap, Hd|].
    exists ("Based on the following context from documents, answer the question. If the answer is not in the context, say so."
            +:+ nl +:+ nl +:+ "Context:" +:+ nl +:+ b),
      (a +:+ nl +:+ nl +:+ "Question: " +:+ question request +:+ nl +:+ nl
       +:+ "Answer (cite sources using [Source N] notation):").
    unfold prompt. rewrite Heq. by rewrite !sapp_assoc.
  - intros i d m Hd Hm. unfold cites. apply lookup_zip_with_Some. eauto.
  - exact Hcites.
  - intros k _ Hk Hcount. lia.
Qed.

(** C4: when the index answers the query, the handler fails with
    [NoDocumentsIndexed] exactly when the result list is empty; with a
    non-empty result list (and its metadata list) the only failure left
    is [GenerationError]. *)
Theorem ask_question_no_documents_iff (request : QuestionRequest)
    (w : World Embedding) (v : Embedding) (vs : list Embedding)
    (results : QueryResult) (docs : list string) (ds : list (list string)) :
  encode [question request] = Ok (v :: vs) ->
  query (collection w) v (top_k request) = Ok results ->
  documents results = docs :: ds ->
  ((ask request w).2 = Err NoDocumentsIndexed <-> docs = [])
  /\ (docs <> [] ->
      forall metas ms e,
        metadatas results = metas :: ms ->
        (ask request w).2 = Err e ->
        exists cause, e = GenerationError cause).
Proof.
  intros Hv Hq Hdocs.
  rewrite (ask_question_retrieved request w v vs results docs ds) by done.
  simpl snd. split.
  - destruct docs as [|d docs']; [by rewrite bool_decide_true|].
    rewrite bool_decide_false by done. split; [|done]. intros Hfail.
    destruct (first_item (metadatas results)) as [metas|e] eqn:Hm.
    + unfold mbind at 1, result_bind at 1 in Hfail.
      unfold call_ollama in Hfail.
      destruct (ollama _); by inversion Hfail.
    + destruct (metadatas results); inversion Hm; subst.
      by inversion Hfail.
  - intros Hne metas ms e Hmetas.
    rewrite bool_decide_false, Hmetas by done. simpl first_item.
    unfold mbind at 1, result_bind at 1, call_ollama.
    destruct (ollama _) as [c|c|c|fields]; intros Hfail;
      inversion Hfail; by eauto.
Qed.

(** C5, amended: once retrieval has succeeded, a backend timeout, a
    non-success response or a body that is not a JSON object makes the
    handler fail with [GenerationError] carrying the cause; a successful
    response yields an answer whose text is the "response" field, and
    the empty string when the object lacks that field. *)
Theorem ask_question_backend_outcomes (request : QuestionRequest)
    (w : World Embedding) (v : Embedding) (vs : list Embedding)
    (results : QueryResult) (docs : list string) (ds : list (list string))
    (metas : list Metadata) (ms : list (list Metadata)) :
  encode [question request] = Ok (v :: vs) ->
  query (collection w) v (top_k request) = Ok results ->
  documents results = docs :: ds ->
  metadatas results = metas :: ms ->
  docs <> [] ->
  let prompt := prompt_for docs metas (question request) in
  let cites := (build_context docs metas).2 in
  (forall cause,
     ollama prompt = Timeout cause \/ ollama prompt = NonSuccess cause
     \/ ollama prompt = Malformed cause ->
     ask request w = (w, Err (GenerationError cause)))
  /\ (forall fields,
        ollama prompt = Payload fields ->
        ask request w
        = (w, Ok {| answer := default "" (fields !! "response");
                    citations := cites |}))
  /\ (forall fields,
        ollama prompt = Payload fields -> fields !! "response" = None ->
        ask request w = (w, Ok {| answer := ""; citations := cites |})).
Proof.
  intros Hv Hq Hdocs Hmetas Hne prompt cites.
  rewrite (ask_question_grounded request w v vs results docs ds metas ms)
    by done.
  fold prompt cites. unfold call_ollama.
  split; [|split].
  - intros cause [H|[H|H]]; by rewrite H.
  - intros fields H. by rewrite H.
  - intros fields H Hnone. by rewrite H, Hnone.
Qed.

End Retrieval.

(** Concrete runs of the retrieval statements: the index holds the two
    chunks of [Demo.short_pdf]. *)

(** C5 fails as stated: a successful response whose object has no
    "response" field gives an answer with empty text, not a
    [GenerationError]. *)
Lemma ask_question_missing_field_empty_answer :
  (exists fields,
     Demo.ollama_no_field
       (prompt_for Demo.docs Demo.metas (question Demo.request))
     = Payload fields
     /\ fields !! "response" = None)
  /\ (ask_question nat Demo.encode Demo.query Demo.ollama_no_field
        Demo.request Demo.indexed_world).2
     = Ok {| answer := "";
             citations :=
               [{| text := "alpha beta"; page := 1; source := "a.pdf" |};
                {| text := "gamma"; page := 3; source := "a.pdf" |}] |}.
Proof.
  split.
  - eexists. split; [reflexivity|]. vm_compute. reflexivity.
  - vm_compute. reflexivity.
Qed.

Lemma ask_question_keeps_retrieval_order_witness :
  let label (i : nat) (d : string) :=
    "[Source " +:+ Py.str_of_int (Z.of_nat i + 1) +:+ "] " +:+ d in
  let cites :=
    zip_with (fun d m => {| text := d; page := meta_page m;
                            source := meta_source m |})
             Demo.docs Demo.metas in
  let prompt :=
    "Based on the following context from documents, answer the question. If the answer is not in the context, say so."
    +:+ nl +:+ nl +:+ "Context:" +:+ nl
    +:+ Py.join (nl +:+ nl) (imap label Demo.docs) +:+ nl +:+ nl
    +:+ "Question: " +:+ question Demo.request +:+ nl +:+ nl
    +:+ "Answer (cite sources using [Source N] notation):" in
  ask_question nat Demo.encode Demo.query Demo.ollama_ok Demo.request
    Demo.indexed_world
  = (Demo.indexed_world,
     match Demo.ollama_ok prompt with
     | Timeout cause | NonSuccess cause | Malformed cause =>
         Err (GenerationError cause)
     | Payload fields =>
         Ok {| answer := default "" (fields !! "response");
               citations := cites |}
     end)
  /\ (forall i d,
        Demo.docs !! i = Some d ->
        exists before after, prompt = before +:+ label i d +:+ after)
  /\ (forall i d m,
        Demo.docs !! i = Some d -> Demo.metas !! i = Some m ->
        cites !! i
        = Some {| text := d; page := meta_page m; source := meta_source m |})
  /\ length cites = length Demo.docs
  /\ (forall k : nat,
        top_k Demo.request = Z.of_nat k ->
        length Demo.docs = (k `min` length (collection Demo.indexed_world))%nat ->
        (k <= length (collection Demo.indexed_world))%nat ->
        length cites = k).
Proof.
  apply (ask_question_keeps_retrieval_order nat Demo.encode Demo.query
           Demo.ollama_ok Demo.request Demo.indexed_world 14%nat []
           Demo.results Demo.docs [] Demo.metas []).
  - reflexivity.
  - vm_compute. reflexivity.
  - reflexivity.
  - reflexivity.
  - discriminate.
  - reflexivity.
Defined.

(** The prompt of this run, character by character. *)
Remark demo_prompt :
  prompt_for Demo.docs Demo.metas (question Demo.request)
  = "Based on the following context from documents, answer the question. If the answer is not in the context, say so."
    +:+ nl +:+ nl +:+ "Context:" +:+ nl
    +:+ "[Source 1] alpha beta" +:+ nl +:+ nl +:+ "[Source 2] gamma"
    +:+ nl +:+ nl +:+ "Question: " +:+ question Demo.request +:+ nl +:+ nl
    +:+ "Answer (cite sources using [Source N] notation):".
Proof. vm_compute. reflexivity. Qed.

Lemma ask_question_no_documents_iff_witness :
  ((ask_question nat Demo.encode Demo.query Demo.ollama_ok Demo.request
      Demo.empty_world).2 = Err NoDocumentsIndexed <-> [] = @nil string)
  /\ (@nil string <> [] ->
      forall metas ms e,
        metadatas {| documents := [[]]; metadatas := [[]] |} = metas :: ms ->
        (ask_question nat Demo.encode Demo.query Demo.ollama_ok Demo.request
           Demo.empty_world).2 = Err e ->
        exists cause, e = GenerationError cause).
Proof.
  apply (ask_question_no_documents_iff nat Demo.encode Demo.query
           Demo.ollama_ok Demo.request Demo.empty_world 14%nat []
           {| documents := [[]]; metadatas := [[]] |} [] []).
  - reflexivity.
  - reflexivity.
  - reflexivity.
Defined.

Lemma ask_question_backend_outcomes_witness :
  ask_question nat Demo.encode Demo.query Demo.ollama_timeout Demo.request
    Demo.indexed_world
  = (Demo.indexed_world, Err (GenerationError "timed out")).
Proof.
  apply (ask_question_backend_outcomes nat Demo.encode Demo.query
           Demo.ollama_timeout Demo.request Demo.indexed_world 14%nat []
           Demo.results Demo.docs [] Demo.metas []).
  - reflexivity.
  - vm_compute. reflexivity.
  - reflexivity.
  - reflexivity.
  - discriminate.
  - left. reflexivity.
Defined.

(** * Further properties of the code *)

(** ** The chunker, window by window *)

Section Windows.

Variable text : string.
Variables size step : nat.
Hypothesis size_pos : (0 < size)%nat.
Hypothesis step_pos : (0 < step)%nat.
Hypothesis step_le_size : (step <= size)%nat.

#[local] Abbreviation words := (Py.split text).
#[local] Abbreviation chunk_at :=
  (fun k => Py.join " " (window_tokens words size step k)).
#[local] Abbreviation chunks :=
  (map chunk_at (seq 0 (window_count (length words) step))).

Lemma window_count_covers :
  (length words <= window_count (length words) step * step)%nat.
Proof.
  destruct (Nat.le_gt_cases (length words)
              (window_count (length words) step * step)) as [H|H]; [done|].
  apply (window_count_bound _ step _ step_pos) in H. lia.
Qed.

Lemma window_tokens_length (k : nat) :
  length (window_tokens words size step k)
  = (size `min` (length words - k * step))%nat.
Proof. unfold window_tokens. by rewrite length_take, length_drop. Qed.

(** Past the first window, what a window adds to the one before. *)
Lemma window_fresh_part (j : nat) :
  drop (size - step) (window_tokens words size step (S j))
  = take step (drop (size + j * step) words).
Proof.
  unfold window_tokens.
  replace size with (size - step + step)%nat at 2 by lia.
  rewrite <- (take_drop_commute (drop (S j * step) words) step (size - step)).
  rewrite drop_drop. do 2 f_equal. lia.
Qed.

Lemma fresh_parts_concat (a m : nat) :
  seq 0 m ≫= (fun j => take step (drop (a + j * step) words))
  = take (m * step) (drop a words).
Proof.
  induction m as [|m IH]; [done|].
  rewrite seq_S, bind_app, IH, bind_singleton. simpl.
  rewrite <- (drop_drop words (m * step) a).
  rewrite take_take_drop. f_equal. lia.
Qed.

(** The first chunk followed by the fresh part of every later chunk is
    the token sequence of the text. *)
Lemma chunks_reconstruct (c0 : string) (rest : list string) :
  chunks = c0 :: rest ->
  tokens c0 ++ (rest ≫= fun c => drop (size - step) (tokens c)) = words.
Proof.
  pose proof window_count_covers as Hcover.
  destruct (window_count (length words) step) as [|m] eqn:Hn; [done|].
  rewrite <- cons_seq, <- fmap_S_seq. cbn [map].
  intros Heq. injection Heq as <- <-.
  rewrite (tokens_window text size step 0).
  rewrite <- list_fmap_compose, list_fmap_bind.
  rewrite (list_bind_ext _
             (fun j => take step (drop (size + j * step) words))
             (seq 0 m) (seq 0 m)); [|intros j|done].
  2: { simpl. rewrite (tokens_window text size step (S j)).
       apply window_fresh_part. }
  rewrite fresh_parts_concat. unfold window_tokens. simpl drop.
  rewrite take_take_drop. apply take_ge. nia.
Qed.

End Windows.

(** The closed form of the chunks, for the parameters as the code takes
    them. *)
Lemma chunk_text_valid_form (text : string) (chunk_size overlap : Z) :
  0 <= overlap < chunk_size ->
  chunk_text text chunk_size overlap
  = Ok (map (fun k =>
               Py.join " "
                 (window_tokens (Py.split text) (Z.to_nat chunk_size)
                    (Z.to_nat (chunk_size - overlap)) k))
            (seq 0 (window_count (length (Py.split text))
                      (Z.to_nat (chunk_size - overlap))))).
Proof.
  intros Hvalid.
  replace chunk_size with (Z.of_nat (Z.to_nat chunk_size)) at 1 by lia.
  replace overlap
    with (Z.of_nat (Z.to_nat chunk_size)
          - Z.of_nat (Z.to_nat (chunk_size - overlap))) at 1 by lia.
  apply chunk_text_windows; lia.
Qed.

(** X1: Chunk [k] exists exactly when its offset [k * (chunk_size - overlap)]
    lies below the number of tokens, and its tokens are then the slice
    [words[offset : offset + chunk_size]]. *)
Theorem chunk_text_chunk_is_window (text : string) (chunk_size overlap : Z) :
  0 <= overlap < chunk_size ->
  exists chunks,
    chunk_text text chunk_size overlap = Ok chunks
    /\ forall k : nat,
         let offset := Z.of_nat k * (chunk_size - overlap) in
         (offset < Z.of_nat (length (tokens text)) ->
          exists c, chunks !! k = Some c
                    /\ tokens c
                       = Py.slice (tokens text) offset (offset + chunk_size))
         /\ (Z.of_nat (length (tokens text)) <= offset -> chunks !! k = None).
Proof.
  intros Hvalid. rewrite chunk_text_valid_form by done.
  set (size := Z.to_nat chunk_size).
  set (step := Z.to_nat (chunk_size - overlap)).
  assert (0 < size)%nat as Hsize by lia.
  assert (0 < step)%nat as Hstep by lia.
  eexists. split; [done|]. intros k offset.
  assert (offset = Z.of_nat (k * step)) as Hoff.
  { unfold offset, step. rewrite Nat2Z.inj_mul, Z2Nat.id by lia. done. }
  split.
  - unfold tokens at 1. intros Hlt. eexists. split.
    + apply (chunks_lookup text size step Hstep). split; [lia|done].
    + rewrite (tokens_window text size step). rewrite Hoff.
      replace chunk_size with (Z.of_nat size) by lia.
      unfold tokens. by rewrite slice_window.
  - unfold tokens. intros Hge.
    destruct (_ !! k) as [c|] eqn:Hc; [|done].
    apply (chunks_lookup text size step Hstep) in Hc as [Hc _]. lia.
Qed.

Lemma chunk_text_chunk_is_window_witness :
  exists chunks,
    chunk_text "a b c d e" 3 1 = Ok chunks
    /\ forall k : nat,
         let offset := Z.of_nat k * (3 - 1) in
         (offset < Z.of_nat (length (tokens "a b c d e")) ->
          exists c, chunks !! k = Some c
                    /\ tokens c
                       = Py.slice (tokens "a b c d e") offset (offset + 3))
         /\ (Z.of_nat (length (tokens "a b c d e")) <= offset ->
             chunks !! k = None).
Proof. apply (chunk_text_chunk_is_window "a b c d e" 3 1). lia. Defined.

(** X2: The number of chunks is the number of tokens divided by the step,
    rounded up. *)
Theorem chunk_text_count (text : string) (chunk_size overlap : Z) :
  0 <= overlap < chunk_size ->
  exists chunks,
    chunk_text text chunk_size overlap = Ok chunks
    /\ Z.of_nat (length chunks)
       = (Z.of_nat (length (tokens text)) + (chunk_size - overlap) - 1)
         / (chunk_size - overlap).
Proof.
  intros Hvalid. rewrite chunk_text_valid_form by done.
  eexists. split; [done|]. rewrite length_map, length_seq. unfold tokens.
  set (step := chunk_size - overlap). assert (0 < step) as Hstep by (unfold step; lia).
  destruct (length (Py.split text)) as [|n]; simpl window_count.
  - rewrite Z.div_small by lia. done.
  - rewrite Nat2Z.inj_succ, Nat2Z.inj_div, Z2Nat.id by lia.
    replace (Z.of_nat (S n) + step - 1) with (Z.of_nat n + 1 * step) by lia.
    rewrite Z.div_add by lia. lia.
Qed.

Lemma chunk_text_count_witness :
  exists chunks,
    chunk_text "a b c d e" 3 1 = Ok chunks
    /\ Z.of_nat (length chunks)
       = (Z.of_nat (length (tokens "a b c d e")) + (3 - 1) - 1) / (3 - 1).
Proof. apply (chunk_text_count "a b c d e" 3 1). lia. Defined.

(** X3: Chunk [k] holds [chunk_size] tokens, or what is left of the text from
    its offset on when that is less; it is never empty. *)
Theorem chunk_text_chunk_length (text : string) (chunk_size overlap : Z)
    (chunks : list string) (k : nat) (c : string) :
  0 <= overlap < chunk_size ->
  chunk_text text chunk_size overlap = Ok chunks ->
  chunks !! k = Some c ->
  Z.of_nat (length (tokens c))
  = Z.min chunk_size
          (Z.of_nat (length (tokens text))
           - Z.of_nat k * (chunk_size - overlap))
  /\ 1 <= Z.of_nat (length (tokens c)) <= chunk_size
  /\ Py.truthy c = true.
Proof.
  intros Hvalid Hrun Hc. rewrite chunk_text_valid_form in Hrun by done.
  injection Hrun as <-.
  set (size := Z.to_nat chunk_size) in *.
  set (step := Z.to_nat (chunk_size - overlap)) in *.
  assert (0 < size)%nat as Hsize by lia.
  assert (0 < step)%nat as Hstep by lia.
  apply (chunks_lookup text size step Hstep) in Hc as [Hk ->].
  rewrite (tokens_window text size step).
  rewrite (window_tokens_length text size step). unfold tokens.
  assert (Z.of_nat k * (chunk_size - overlap) = Z.of_nat (k * step)) as ->.
  { unfold step. rewrite Nat2Z.inj_mul, Z2Nat.id by lia. done. }
  split; [lia|]. split; [lia|].
  apply join_truthy.
  - by apply window_tokens_nonempty.
  - apply window_tokens_words.
Qed.

Lemma chunk_text_chunk_length_witness :
  Z.of_nat (length (tokens "e"))
  = Z.min 3 (Z.of_nat (length (tokens "a b c d e")) - Z.of_nat 2 * (3 - 1))
  /\ 1 <= Z.of_nat (length (tokens "e")) <= 3
  /\ Py.truthy "e" = true.
Proof.
  apply (chunk_text_chunk_length "a b c d e" 3 1 ["a b c"; "c d e"; "e"] 2 "e").
  - lia.
  - reflexivity.
  - reflexivity.
Defined.

(** X4: Nothing is lost: the tokens of the first chunk, followed by the tokens
    of every later chunk without their first [overlap] ones, are the
    tokens of the text; there is no chunk only when there is no token. *)
Theorem chunk_text_reconstructs_tokens (text : string)
    (chunk_size overlap : Z) (chunks : list string) :
  0 <= overlap < chunk_size ->
  chunk_text text chunk_size overlap = Ok chunks ->
  match chunks with
  | [] => tokens text = []
  | c0 :: rest =>
      tokens c0 ++ (rest ≫= fun c => drop (Z.to_nat overlap) (tokens c))
      = tokens text
  end.
Proof.
  intros Hvalid Hrun. rewrite chunk_text_valid_form in Hrun by done.
  injection Hrun as <-.
  set (size := Z.to_nat chunk_size) in *.
  set (step := Z.to_nat (chunk_size - overlap)) in *.
  assert (0 < size)%nat as Hsize by lia.
  assert (0 < step)%nat as Hstep by lia.
  assert (step <= size)%nat as Hle by lia.
  assert (Z.to_nat overlap = size - step)%nat as -> by lia.
  destruct (map _ _) as [|c0 rest] eqn:Hchunks.
  - apply (f_equal length) in Hchunks.
    rewrite length_map, length_seq in Hchunks. unfold tokens.
    destruct (Py.split text); [done|discriminate].
  - by apply (chunks_reconstruct text size step Hsize Hstep Hle).
Qed.

Lemma chunk_text_reconstructs_tokens_witness :
  tokens "a b c" ++ (["c d e"; "e"] ≫= fun c => drop (Z.to_nat 1) (tokens c))
  = tokens "a b c d e".
Proof.
  apply (chunk_text_reconstructs_tokens "a b c d e" 3 1
           ["a b c"; "c d e"; "e"]).
  - lia.
  - reflexivity.
Defined.

(** X5: A text without a token (empty, or whitespace only) gives no chunk for
    any parameters with [chunk_size <> overlap], and still the zero-step
    [ValueError] when they are equal. *)
Theorem chunk_text_blank (text : string) (chunk_size overlap : Z) :
  Py.all_space text = true ->
  chunk_text text chunk_size overlap
  = if chunk_size =? overlap
    then Err (ValueError "range() arg 3 must not be zero")
    else Ok [].
Proof.
  intros Hblank.
  assert (Py.split text = []) as Hnil by (by apply split_from_nil).
  unfold chunk_text, Py.range, Py.range_length. rewrite Hnil. simpl length.
  destruct (Z.eqb_spec chunk_size overlap) as [->|Hne].
  - by rewrite Z.sub_diag.
  - destruct (Z.eqb_spec (chunk_size - overlap) 0) as [?|_]; [lia|].
    by destruct (0 <? chunk_size - overlap).
Qed.

Lemma chunk_text_blank_witness :
  chunk_text "   " 500 50 = Ok [] /\ chunk_text "" 1 2 = Ok []
  /\ chunk_text "   " 7 7 = Err (ValueError "range() arg 3 must not be zero").
Proof.
  split; [|split].
  - apply (chunk_text_blank "   " 500 50). reflexivity.
  - apply (chunk_text_blank "" 1 2). reflexivity.
  - apply (chunk_text_blank "   " 7 7). reflexivity.
Defined.

(** X6: A text is returned as a single chunk exactly when it has at least one
    token and at most [chunk_size - overlap] of them; the chunk is then
    the tokens joined by single spaces. A text with more tokens than
    that, even one that fits in a single window, gives several chunks. *)
Theorem chunk_text_single_chunk_iff (text : string)
    (chunk_size overlap : Z) (chunks : list string) :
  0 <= overlap < chunk_size ->
  chunk_text text chunk_size overlap = Ok chunks ->
  (length chunks = 1%nat
   <-> 0 < Z.of_nat (length (tokens text)) <= chunk_size - overlap)
  /\ (0 < Z.of_nat (length (tokens text)) <= chunk_size - overlap ->
      chunks = [Py.join " " (tokens text)]).
Proof.
  intros Hvalid Hrun. rewrite chunk_text_valid_form in Hrun by done.
  injection Hrun as <-.
  set (size := Z.to_nat chunk_size) in *.
  set (step := Z.to_nat (chunk_size - overlap)) in *.
  assert (0 < step)%nat as Hstep by lia.
  assert (step <= size)%nat as Hle by lia.
  unfold tokens. rewrite length_map, length_seq.
  assert (window_count (length (Py.split text)) step = 1%nat
          <-> 0 < Z.of_nat (length (Py.split text)) <= chunk_size - overlap)
    as Hone.
  { destruct (length (Py.split text)) as [|n]; simpl window_count; [lia|].
    pose proof (Nat.div_small_iff n step ltac:(lia)) as Hdiv. lia. }
  split; [done|]. intros Hfew. apply Hone in Hfew as Hcount.
  rewrite Hcount. cbn [seq map]. do 2 f_equal.
  unfold window_tokens. simpl drop. apply take_ge. lia.
Qed.

Lemma chunk_text_single_chunk_iff_witness :
  (length ["a b c"; "c"] = 1%nat
   <-> 0 < Z.of_nat (length (tokens " a b  c ")) <= 3 - 1)
  /\ (0 < Z.of_nat (length (tokens " a b  c ")) <= 3 - 1 ->
      ["a b c"; "c"] = [Py.join " " (tokens " a b  c ")]).
Proof.
  apply (chunk_text_single_chunk_iff " a b  c " 3 1 ["a b c"; "c"]).
  - lia.
  - reflexivity.
Defined.

(** ** Extraction *)

Lemma kept_pages_increase (name : string) (texts : list string) (n : nat) :
  let kept :=
    filter non_blank (imap (fun i => page_chunk_of name (n + i)) texts) in
  (forall pc, pc ∈ kept -> Z.of_nat n < page pc) /\ pages_increase kept.
Proof.
  revert n. induction texts as [|t texts IH]; intros n kept.
  - split; [by intros pc ?%elem_of_nil|]. by intros i j pc pc' _ ?.
  - unfold kept. cbn [imap]. rewrite filter_cons.
    rewrite (imap_ext _ (fun i => page_chunk_of name (S n + i)))
      by (intros i x _; simpl; f_equal; lia).
    destruct (IH (S n)) as [Hlow Hinc].
    destruct (decide _) as [Hnb|Hnb].
    + split.
      * intros pc [->|Hin]%elem_of_cons; [simpl; lia|].
        apply Hlow in Hin. lia.
      * intros i j pc pc' Hij Hi Hj.
        destruct j as [|j]; [lia|]. simpl in Hj.
        destruct i as [|i]; simpl in Hi.
        -- injection Hi as <-.
           apply list_elem_of_lookup_2, Hlow in Hj. simpl. lia.
        -- apply (Hinc i j); [lia|done..].
    + split; [|done]. intros pc Hin. apply Hlow in Hin. lia.
Qed.

Section Extraction.

Variable Embedding : Type.
Variable resolve : string -> string.

#[local] Abbreviation extract := (extract_text_from_pdf Embedding resolve).

(** X7: When every page of the stored document extracts, the handler returns
    one page chunk per non-blank page and none for a blank one: each
    carries the text of its page, the 1-based position of that page in
    the document and the file name of the path; the page numbers grow
    along the list. The world is left as it was. *)
Theorem extract_text_from_pdf_page_chunks (pdf_path : string)
    (w : World Embedding) (texts : list string) :
  files w !! resolve pdf_path = Some (Pages (PageText <$> texts)) ->
  exists page_chunks,
    extract pdf_path w = (w, Ok page_chunks)
    /\ (forall pc,
          pc ∈ page_chunks <->
          exists i : nat,
            texts !! i = Some (text pc) /\ page pc = Z.of_nat i + 1
            /\ source pc = path_name pdf_path
            /\ Py.truthy (Py.strip (text pc)) = true)
    /\ pages_increase page_chunks.
Proof.
  intros Hfile. exists (non_blank_pages (path_name pdf_path) texts).
  split; [|split].
  - unfold extract_text_from_pdf.
    by rewrite Hfile, extract_pages_non_blank.
  - apply non_blank_pages_member.
  - apply (kept_pages_increase (path_name pdf_path) texts 0).
Qed.

(** X8: The first page that raises ends the extraction: the handler fails
    with status 400 and the cause of that page, whatever the pages before
    it held and whatever comes after it, and returns no page chunk. *)
Theorem extract_text_from_pdf_first_failure (pdf_path : string)
    (w : World Embedding) (before : list string) (cause : string)
    (after : list PageOutcome) :
  files w !! resolve pdf_path
  = Some (Pages ((PageText <$> before) ++ PageRaises cause :: after)) ->
  extract pdf_path w
  = (w, Err (HTTPException 400 ("Error reading PDF: " +:+ cause))).
Proof.
  intros Hfile. unfold extract_text_from_pdf. rewrite Hfile.
  assert (forall n, extract_pages (path_name pdf_path) n
                      ((PageText <$> before) ++ PageRaises cause :: after)
                    = inl cause) as ->; [|done].
  clear Hfile. induction before as [|t before IH]; intros n; [done|].
  simpl. by rewrite IH.
Qed.

End Extraction.

Lemma extract_text_from_pdf_page_chunks_witness :
  exists page_chunks,
    extract_text_from_pdf nat Demo.resolve "/app/uploads/a.pdf"
      Demo.indexed_world
    = (Demo.indexed_world, Ok page_chunks)
    /\ (forall pc,
          pc ∈ page_chunks <->
          exists i : nat,
            ["alpha beta"; " "; "gamma"] !! i = Some (text pc)
            /\ page pc = Z.of_nat i + 1
            /\ source pc = path_name "/app/uploads/a.pdf"
            /\ Py.truthy (Py.strip (text pc)) = true)
    /\ pages_increase page_chunks.
Proof.
  apply (extract_text_from_pdf_page_chunks nat Demo.resolve
           "/app/uploads/a.pdf" Demo.indexed_world ["alpha beta"; " "; "gamma"]).
  vm_compute. reflexivity.
Defined.

(** A path that names no file is reported with Python's text. *)
Example extract_text_from_pdf_missing_file :
  extract_text_from_pdf nat Demo.resolve "/app/uploads/none.pdf"
    Demo.indexed_world
  = (Demo.indexed_world,
     Err (ExtractionError
            "[Errno 2] No such file or directory: '/app/uploads/none.pdf'")).
Proof. vm_compute. reflexivity. Qed.

Lemma extract_text_from_pdf_first_failure_witness :
  let w :=
    (upload_pdf nat Demo.encode Demo.uuid4 Demo.resolve Demo.open_rejects
       Demo.add_rejects Demo.broken_pages Demo.empty_world).1 in
  extract_text_from_pdf nat Demo.resolve "/app/uploads/broken.pdf" w
  = (w, Err (HTTPException 400 "Error reading PDF: bad xref")).
Proof.
  apply (extract_text_from_pdf_first_failure nat Demo.resolve
           "/app/uploads/broken.pdf" _ ["first page"] "bad xref" []).
  vm_compute. reflexivity.
Defined.

(** ** Uploads, one after the other *)

Lemma page_sub_chunks_tokens (t c : string) :
  c ∈ page_sub_chunks t -> (1 <= length (tokens c) <= 500)%nat.
Proof.
  intros Hc. split; [|by eapply page_sub_chunks_bounded].
  unfold page_sub_chunks in Hc. rewrite chunk_text_default in Hc.
  apply list_elem_of_fmap in Hc as (k & -> & Hk).
  apply elem_of_seq in Hk as [_ Hk]. simpl in Hk.
  apply window_count_bound in Hk; [|lia].
  rewrite (tokens_window t 500 450 k).
  pose proof (window_tokens_nonempty t 500 450 ltac:(lia) ltac:(lia) k Hk).
  destruct (window_tokens _ _ _ _); [done|simpl; lia].
Qed.

(** Extraction keeps a page exactly when the chunker finds a chunk in
    it. *)
Lemma page_sub_chunks_nonempty_iff (t : string) :
  page_sub_chunks t <> [] <-> Py.truthy (Py.strip t) = true.
Proof.
  rewrite strip_truthy_split. unfold page_sub_chunks.
  rewrite chunk_text_default. destruct (Py.split t) as [|w ws]; [done|].
  simpl window_count. cbn [seq map]. done.
Qed.

Lemma extract_pages_provenance (name : string) (n : Z)
    (pages : list PageOutcome) (page_chunks : list Chunk) (pc : Chunk) :
  extract_pages name n pages = inr page_chunks -> pc ∈ page_chunks ->
  source pc = name
  /\ n + 1 <= page pc <= n + Z.of_nat (length pages)
  /\ Py.truthy (Py.strip (text pc)) = true.
Proof.
  revert n page_chunks pc.
  induction pages as [|p pages IH]; intros n pcs pc Hex Hin; simpl in Hex.
  - inversion Hex; subst. by apply elem_of_nil in Hin.
  - destruct p as [t|c]; [|done].
    destruct (extract_pages name (n + 1) pages) as [c|rest] eqn:Hrest; [done|].
    assert (forall pc', pc' ∈ rest ->
              source pc' = name
              /\ n + 1 <= page pc' <= n + Z.of_nat (length (PageText t :: pages))
              /\ Py.truthy (Py.strip (text pc')) = true) as Hrest_ok.
    { intros pc' Hpc'. destruct (IH (n + 1) rest pc' Hrest Hpc') as (? & ? & ?).
      simpl length. split; [done|]. split; [lia|done]. }
    destruct (Py.truthy (Py.strip t)) eqn:Hnb; inversion Hex; subst.
    + apply elem_of_cons in Hin as [->|Hin]; [|by apply Hrest_ok].
      simpl. split; [done|]. split; [lia|done].
    + by apply Hrest_ok.
Qed.

Section Uploads.

Variable Embedding : Type.
Variable encode : list string -> result (list Embedding).
Variable uuid4 : nat -> string.
Variable resolve : string -> string.
Variable open_rejects : gmap string Document -> string -> option exn.
Variable add_rejects :
  list (Entry Embedding) -> list Embedding -> list string ->
  list Metadata -> list string -> option exn.

#[local] Abbreviation upload :=
  (upload_pdf Embedding encode uuid4 resolve open_rejects add_rejects).
#[local] Abbreviation saved := (saved Embedding resolve).
#[local] Abbreviation drawn := (drawn Embedding resolve).
#[local] Abbreviation fresh_ids := (fresh_ids Embedding uuid4).
#[local] Abbreviation upload_batch := (upload_batch Embedding uuid4).
#[local] Abbreviation indexed := (indexed Embedding uuid4 resolve).
#[local] Abbreviation run :=
  (upload_all encode uuid4 resolve open_rejects add_rejects).
#[local] Abbreviation write_accepted := (write_accepted open_rejects).
#[local] Abbreviation batch_accepted :=
  (batch_accepted encode uuid4 add_rejects).

(** The four ways an upload ends: before anything is written (the name is
    refused, or the file system refuses the write), after the file is
    written, after the ids are drawn, or with the batch in the index. *)
Lemma upload_pdf_cases (file : UploadFile) (w : World Embedding) :
  (exists e, upload file w = (w, Err e))
  \/ (Py.endswith (filename file) ".pdf" = true
      /\ exists e, upload file w = (saved file w, Err e))
  \/ (Py.endswith (filename file) ".pdf" = true
      /\ exists e n, upload file w = (drawn file w n, Err e))
  \/ (Py.endswith (filename file) ".pdf" = true
      /\ exists pages page_chunks es,
           content file = Pages pages
           /\ extract_pages (stored_name file) 0 pages = inr page_chunks
           /\ let all_chunks :=
                page_chunks
                  ≫= fun pc => sub_chunks pc (page_sub_chunks (text pc)) in
              encode (map text all_chunks) = Ok es
              /\ upload file w
                 = (indexed file w es all_chunks,
                    Ok {| message := "PDF indexed successfully";
                          chunks_added := length all_chunks |})).
Proof.
  destruct (Py.endswith (filename file) ".pdf") eqn:Hname.
  2: { left. eexists. by apply upload_pdf_unsupported. }
  destruct (open_rejects (files w) (path_join UPLOAD_DIR (filename file)))
    as [e|] eqn:Hopen.
  { left. exists e. by apply upload_pdf_refused. }
  right. rewrite upload_pdf_supported by done.
  destruct (content file) as [cause|pages]; [left; by eauto|].
  destruct (extract_pages (stored_name file) 0 pages) as [cause|pcs] eqn:Hex;
    [left; by eauto|].
  cbv zeta. destruct (encode _) as [es|e] eqn:Hes; [|left; by eauto].
  destruct (add_rejects _ _ _ _ _) as [e|]; [right; left; by eauto|].
  right. right. split; [done|]. exists pages, pcs, es. by rewrite Hes.
Qed.

(** The entries of a batch, seen through their documents and metadata
    and through their ids. *)
Lemma upload_batch_members (w : World Embedding) (es : list Embedding)
    (all_chunks : list Chunk) (e : Entry Embedding) :
  e ∈ upload_batch w es all_chunks ->
  exists c, c ∈ all_chunks
            /\ entry_document e = text c
            /\ entry_metadata e = chunk_metadata c.
Proof.
  intros He. apply (list_elem_of_fmap_2 stored_view) in He.
  unfold upload_batch in He.
  rewrite (batch_view Embedding) in He.
  apply (subseteq_take _ _ _) in He. rewrite all_chunks_view in He.
  apply list_elem_of_fmap in He as (c & Hview & Hc).
  exists c. unfold stored_view in Hview. by injection Hview as -> ->.
Qed.

Lemma batch_ids (es : list Embedding) (ds : list string)
    (ms : list Metadata) (ids : list string) :
  map entry_id (batch Embedding es ds ms ids)
  = take (length (batch Embedding es ds ms ids)) ids.
Proof.
  unfold batch. revert es ds ms.
  induction ids as [|i ids IH]; intros es ds ms.
  - by rewrite take_nil.
  - destruct es as [|e es]; [done|].
    destruct ds as [|d ds]; [done|].
    destruct ms as [|m ms]; [done|].
    simpl. f_equal. apply IH.
Qed.

Lemma upload_batch_length (w : World Embedding) (es : list Embedding)
    (all_chunks : list Chunk) :
  length es = length all_chunks ->
  length (upload_batch w es all_chunks) = length all_chunks.
Proof.
  intros Hes.
  rewrite <- (length_map stored_view). unfold upload_batch.
  rewrite (batch_view Embedding), length_take, length_zip_with.
  rewrite !length_map, length_fresh_ids. lia.
Qed.

(** One upload keeps the ids distinct, when [uuid4] never repeats. *)
Lemma upload_pdf_keeps_ids_fresh (file : UploadFile) (w : World Embedding) :
  Inj (=) (=) uuid4 ->
  ids_fresh uuid4 w -> ids_fresh uuid4 (upload file w).1.
Proof.
  intros Hinj [Hnodup Hdrawn].
  destruct (upload_pdf_cases file w)
    as [[e0 ->]|[[_ [e ->]]|[[_ (e & n & ->)]
        |[_ (pages & pcs & es & _ & _ & _ & ->)]]]]; simpl fst.
  - done.
  - done.
  - split; [done|]. intros e' He'. destruct (Hdrawn e' He') as (j & Hj & ->).
    exists j. simpl. split; [lia|done].
  - set (all_chunks := pcs ≫= _).
    assert (forall x,
              x ∈ map entry_id (upload_batch w es all_chunks) ->
              exists k, (k < length all_chunks)%nat
                        /\ x = uuid4 (uuids_drawn w + k)) as Hnew.
    { intros x Hx. unfold upload_batch in Hx.
      rewrite batch_ids in Hx. apply (subseteq_take _ _ _) in Hx.
      apply list_elem_of_fmap in Hx as (k & -> & Hk).
      apply elem_of_seq in Hk. exists k. split; [lia|done]. }
    split; simpl.
    + rewrite map_app. apply NoDup_app. split; [done|]. split.
      * intros x Hold Hx.
        apply list_elem_of_fmap in Hold as (e' & -> & He').
        destruct (Hdrawn e' He') as (j & Hj & Hid).
        destruct (Hnew _ Hx) as (k & _ & Hk).
        rewrite Hid in Hk. apply Hinj in Hk. lia.
      * unfold upload_batch. rewrite batch_ids.
        eapply sublist_NoDup; [|apply sublist_take].
        assert (Inj (=) (=) (fun k => uuid4 (uuids_drawn w + k)%nat))
          by (intros k k' Hk; apply Hinj in Hk; lia).
        apply (NoDup_fmap_2 (fun k => uuid4 (uuids_drawn w + k)%nat)),
          NoDup_seq.
    + intros e' [He'|He']%elem_of_app.
      * destruct (Hdrawn e' He') as (j & Hj & ->). exists j. split; [lia|done].
      * destruct (Hnew (entry_id e')) as (k & Hk & ->);
          [by apply list_elem_of_fmap_2|].
        exists (uuids_drawn w + k)%nat. split; [lia|done].
Qed.

(** X10: The ids stay pairwise distinct over any sequence of uploads, failed
    ones included, as long as [uuid4] never returns a value twice. *)
Theorem upload_all_keeps_ids_fresh (uploads : list UploadFile)
    (w : World Embedding) :
  Inj (=) (=) uuid4 ->
  ids_fresh uuid4 w -> ids_fresh uuid4 (run uploads w).
Proof.
  intros Hinj. revert w. unfold upload_all.
  induction uploads as [|file uploads IH]; intros w Hw; [done|].
  simpl. by apply IH, upload_pdf_keeps_ids_fresh.
Qed.

(** One upload writes only well-formed entries. *)
Lemma upload_pdf_keeps_entries_well_formed (file : UploadFile)
    (w : World Embedding) :
  Forall well_formed_entry (collection w) ->
  Forall well_formed_entry (collection (upload file w).1).
Proof.
  intros Hold.
  destruct (upload_pdf_cases file w)
    as [[e0 ->]|[[_ [e ->]]|[[_ (e & n & ->)]
        |[Hname (pages & pcs & es & _ & Hex & _ & ->)]]]]; simpl fst;
    [done..|].
  simpl. apply Forall_app. split; [done|].
  apply Forall_forall. intros e He.
  apply upload_batch_members in He as (c & Hc & Hdoc & Hmeta).
  apply list_elem_of_bind in Hc as (pc & Hc & Hpc).
  unfold sub_chunks in Hc. apply list_elem_of_fmap in Hc as (d & -> & Hd).
  destruct (extract_pages_provenance _ _ _ _ _ Hex Hpc)
    as (Hsource & [Hpage _] & _).
  unfold well_formed_entry. rewrite Hdoc, Hmeta. simpl.
  split; [by eapply page_sub_chunks_tokens|]. split; [lia|].
  rewrite Hsource. split.
  - apply stored_name_no_slash.
  - by apply stored_name_endswith.
Qed.

(** X11: Over any sequence of uploads, every entry of the index keeps a chunk
    of one to 500 tokens, a page number from 1 on and, as source, a bare
    file name that ends in ".pdf". *)
Theorem upload_all_keeps_entries_well_formed (uploads : list UploadFile)
    (w : World Embedding) :
  Forall well_formed_entry (collection w) ->
  Forall well_formed_entry (collection (run uploads w)).
Proof.
  revert w. unfold upload_all.
  induction uploads as [|file uploads IH]; intros w Hw; [done|].
  simpl. by apply IH, upload_pdf_keeps_entries_well_formed.
Qed.

(** X12: The statistics follow the uploads: after an upload the count is the
    count before plus the [chunks_added] it reported, and the count
    before when it failed. The embedder is assumed to return one vector
    per text. *)
Theorem get_stats_after_upload (env : gmap string string)
    (file : UploadFile) (w : World Embedding) :
  one_vector_per_text encode ->
  get_stats env (upload file w).1
  = ((upload file w).1,
     Ok {| indexed_chunks :=
             length (collection w)
             + match (upload file w).2 with
               | Ok response => chunks_added response
               | Err _ => 0
               end;
           model := MODEL_NAME env;
           embedding_model := "all-MiniLM-L6-v2" |}).
Proof.
  intros Hencode. unfold get_stats. do 3 f_equal.
  destruct (upload_pdf_cases file w)
    as [[e0 ->]|[[_ [e ->]]|[[_ (e & n & ->)]
        |[_ (pages & pcs & es & _ & _ & Hes & ->)]]]]; simpl; [lia..|].
  rewrite length_app. f_equal. apply upload_batch_length.
  destruct (Hencode (map text (pcs ≫= fun pc =>
              sub_chunks pc (page_sub_chunks (text pc))))) as (es' & Hes' & Hlen).
  rewrite Hes in Hes'. injection Hes' as <-. by rewrite length_map in Hlen.
Qed.

(** X13: A successful upload adds nothing exactly when every page of the
    document is blank; otherwise it adds at least one chunk per
    non-blank page. *)
Theorem upload_pdf_adds_nothing_iff_blank (file : UploadFile)
    (w w' : World Embedding) (response : UploadResponse)
    (texts : list string) :
  content file = Pages (PageText <$> texts) ->
  upload file w = (w', Ok response) ->
  (chunks_added response = 0%nat
   <-> Forall (fun t => Py.all_space t = true) texts)
  /\ (length (non_blank_pages (stored_name file) texts)
      <= chunks_added response)%nat.
Proof.
  intros Hcontent Hrun.
  destruct (upload_pdf_cases file w)
    as [[e0 H]|[[_ [e H]]|[[_ (e & n & H)]
        |[_ (pages & pcs & es & Hpages & Hex & _ & H)]]]];
    rewrite H in Hrun; try discriminate.
  injection Hrun as _ <-. simpl.
  rewrite Hcontent in Hpages. injection Hpages as <-.
  rewrite extract_pages_non_blank in Hex. injection Hex as <-.
  rewrite sub_chunks_count.
  set (kept := non_blank_pages (stored_name file) texts).
  assert (forall pc, pc ∈ kept ->
            (1 <= length (page_sub_chunks (text pc)))%nat) as Hone.
  { intros pc Hpc. apply non_blank_pages_member in Hpc as (_ & _ & _ & _ & Hnb).
    apply page_sub_chunks_nonempty_iff in Hnb.
    destruct (page_sub_chunks (text pc)); [done|simpl; lia]. }
  assert (length kept
          <= sum_list_with (fun pc => length (page_sub_chunks (text pc))) kept)%nat
    as Hbound.
  { clear -Hone. induction kept as [|pc kept IH]; [done|]. simpl.
    pose proof (Hone pc ltac:(left)).
    assert (forall pc', pc' ∈ kept ->
              (1 <= length (page_sub_chunks (text pc')))%nat)
      by (intros; apply Hone; by right).
    specialize (IH ltac:(done)). lia. }
  split; [|done]. split.
  - intros Hzero. assert (kept = []) as Hnil
      by (apply nil_length_inv; lia).
    apply Forall_forall. intros t Ht.
    apply list_elem_of_lookup in Ht as [i Hi].
    destruct (Py.all_space t) eqn:Hblank; [done|].
    assert (page_chunk_of (stored_name file) i t ∈ kept) as Hin.
    { apply non_blank_pages_member. exists i. simpl.
      by rewrite strip_truthy, Hblank. }
    rewrite Hnil in Hin. by apply elem_of_nil in Hin.
  - intros Hblank. assert (kept = []) as ->; [|done].
    destruct kept as [|pc kept'] eqn:Hkept; [done|].
    assert (pc ∈ kept) as Hpc by (rewrite Hkept; left).
    apply non_blank_pages_member in Hpc as (i & Hi & _ & _ & Hnb).
    apply list_elem_of_lookup_2 in Hi.
    rewrite Forall_forall in Hblank. apply Hblank in Hi.
    by rewrite strip_truthy, Hi in Hnb.
Qed.

(** X14: After a successful upload under a name without a slash, every entry
    added names that very file as its source, and its page number lies
    between 1 and the number of pages of the document. *)
Theorem upload_pdf_source_is_filename (file : UploadFile)
    (w w' : World Embedding) (response : UploadResponse) :
  no_slash (filename file) = true ->
  upload file w = (w', Ok response) ->
  exists pages added,
    content file = Pages pages
    /\ collection w' = collection w ++ added
    /\ forall e, e ∈ added ->
         meta_source (entry_metadata e) = filename file
         /\ 1 <= meta_page (entry_metadata e) <= Z.of_nat (length pages).
Proof.
  intros Hplain Hrun.
  destruct (upload_pdf_cases file w)
    as [[e0 H]|[[_ [e H]]|[[_ (e & n & H)]
        |[_ (pages & pcs & es & Hpages & Hex & _ & H)]]]];
    rewrite H in Hrun; try discriminate.
  injection Hrun as <- _.
  exists pages. eexists. split; [done|]. split; [done|]. intros e He.
  apply upload_batch_members in He as (c & Hc & _ & ->).
  apply list_elem_of_bind in Hc as (pc & Hc & Hpc).
  unfold sub_chunks in Hc. apply list_elem_of_fmap in Hc as (d & -> & _).
  destruct (extract_pages_provenance _ _ _ _ _ Hex Hpc)
    as (Hsource & Hpage & _).
  simpl. rewrite Hsource, stored_name_plain by done. split; [done|lia].
Qed.

(** X15: Ingestion is additive: uploading the same document a second time
    succeeds again with the same [chunks_added] and appends the same
    documents and metadata once more, after the first copy. This holds
    when, at each of the two uploads, the file system lets the file be
    written and the index takes the batch of the document, and the
    embedder gives one vector per text. *)
Theorem upload_pdf_twice_accumulates (file : UploadFile)
    (w : World Embedding) (texts : list string) :
  one_vector_per_text encode ->
  Py.endswith (filename file) ".pdf" = true ->
  content file = Pages (PageText <$> texts) ->
  let contribution :=
    non_blank_pages (stored_name file) texts ≫= page_contribution in
  write_accepted file w ->
  batch_accepted w contribution ->
  write_accepted file (upload file w).1 ->
  batch_accepted (upload file w).1 contribution ->
  exists w1 w2 added1 added2 n,
    upload file w
    = (w1, Ok {| message := "PDF indexed successfully"; chunks_added := n |})
    /\ upload file w1
       = (w2, Ok {| message := "PDF indexed successfully";
                    chunks_added := n |})
    /\ collection w2 = collection w ++ added1 ++ added2
    /\ map stored_view added1 = map stored_view added2
    /\ length added1 = n.
Proof.
  intros Hencode Hname Hcontent contribution Hwrite1 Hbatch1 Hwrite2 Hbatch2.
  destruct (upload_pdf_all_pages_extract Embedding encode uuid4 resolve
              open_rejects add_rejects
              file w texts Hencode Hname Hcontent Hwrite1 Hbatch1)
    as (es1 & Hrun1 & Hview1).
  set (w1 := (upload file w).1) in *.
  destruct (upload_pdf_all_pages_extract Embedding encode uuid4 resolve
              open_rejects add_rejects
              file w1 texts Hencode Hname Hcontent Hwrite2 Hbatch2)
    as (es2 & Hrun2 & Hview2).
  set (all_chunks :=
         non_blank_pages (stored_name file) texts
           ≫= fun pc => sub_chunks pc (page_sub_chunks (text pc))) in *.
  assert (upload file w
          = (w1, Ok {| message := "PDF indexed successfully";
                       chunks_added := length all_chunks |})) as Hrun1'.
  { unfold w1. by rewrite Hrun1. }
  assert (collection w1 = collection w ++ upload_batch w es1 all_chunks)
    as Hw1.
  { unfold w1. by rewrite Hrun1. }
  exists w1, (indexed file w1 es2 all_chunks),
    (upload_batch w es1 all_chunks), (upload_batch w1 es2 all_chunks),
    (length all_chunks).
  split; [exact Hrun1'|]. split; [exact Hrun2|]. split; [|split].
  - unfold indexed. cbn [collection]. rewrite Hw1.
    by rewrite <- app_assoc.
  - by rewrite Hview1, Hview2.
  - rewrite <- (length_map stored_view), Hview1.
    unfold all_chunks. rewrite <- sub_chunks_view. by rewrite length_map.
Qed.

End Uploads.

(** Concrete runs of the upload statements. *)

Lemma str_of_int_inj (n m : Z) :
  Py.str_of_int n = Py.str_of_int m -> n = m.
Proof.
  unfold Py.str_of_int. intros Heq.
  apply DecimalZ.to_int_inj.
  assert (forall z, NilZero.int_of_string (NilZero.string_of_int (Z.to_int z))
                    = Some (Z.to_int z)) as Hparse.
  { intros z. apply NilZero.isi; destruct z as [|p|p]; simpl; try discriminate.
    intros [= H]. by apply DecimalPos.Unsigned.to_uint_nonnil in H.
    intros [= H]. by apply DecimalPos.Unsigned.to_uint_nonnil in H. }
  apply (f_equal NilZero.int_of_string) in Heq.
  rewrite !Hparse in Heq. by injection Heq.
Qed.

Lemma demo_uuid4_inj : Inj (=) (=) Demo.uuid4.
Proof.
  intros j k Heq. unfold Demo.uuid4 in Heq.
  injection Heq as Heq. apply str_of_int_inj in Heq. lia.
Qed.

Lemma upload_all_keeps_ids_fresh_witness :
  ids_fresh Demo.uuid4
    (upload_all Demo.encode Demo.uuid4
         Demo.resolve Demo.open_rejects Demo.add_rejects
       [Demo.short_pdf; Demo.broken_pages; Demo.short_pdf] Demo.empty_world).
Proof.
  apply (upload_all_keeps_ids_fresh nat Demo.encode Demo.uuid4
           Demo.resolve Demo.open_rejects Demo.add_rejects).
  - exact demo_uuid4_inj.
  - split; [constructor|]. intros e He. by apply elem_of_nil in He.
Defined.

Lemma upload_all_keeps_entries_well_formed_witness :
  Forall well_formed_entry
    (collection
       (upload_all Demo.encode Demo.uuid4
            Demo.resolve Demo.open_rejects Demo.add_rejects
          [Demo.short_pdf; Demo.broken_pages; Demo.two_pages]
          Demo.empty_world)).
Proof.
  apply (upload_all_keeps_entries_well_formed nat Demo.encode Demo.uuid4
           Demo.resolve Demo.open_rejects Demo.add_rejects).
  constructor.
Defined.

Lemma get_stats_after_upload_witness :
  get_stats ∅
    (upload_pdf nat Demo.encode Demo.uuid4
         Demo.resolve Demo.open_rejects Demo.add_rejects Demo.short_pdf
       Demo.indexed_world).1
  = ((upload_pdf nat Demo.encode Demo.uuid4
       Demo.resolve Demo.open_rejects Demo.add_rejects Demo.short_pdf
        Demo.indexed_world).1,
     Ok {| indexed_chunks :=
             length (collection Demo.indexed_world)
             + match (upload_pdf nat Demo.encode Demo.uuid4
                  Demo.resolve Demo.open_rejects Demo.add_rejects
                        Demo.short_pdf Demo.indexed_world).2 with
               | Ok response => chunks_added response
               | Err _ => 0
               end;
           model := MODEL_NAME ∅;
           embedding_model := "all-MiniLM-L6-v2" |}).
Proof.
  apply (get_stats_after_upload nat Demo.encode Demo.uuid4
       Demo.resolve Demo.open_rejects Demo.add_rejects
           ∅ Demo.short_pdf Demo.indexed_world).
  exact demo_one_vector_per_text.
Defined.

Lemma upload_pdf_adds_nothing_iff_blank_witness :
  (chunks_added {| message := "PDF indexed successfully"; chunks_added := 2 |}
   = 0%nat
   <-> Forall (fun t => Py.all_space t = true) ["alpha beta"; " "; "gamma"])
  /\ (length (non_blank_pages (stored_name Demo.short_pdf)
                ["alpha beta"; " "; "gamma"])
      <= chunks_added
           {| message := "PDF indexed successfully"; chunks_added := 2 |})%nat.
Proof.
  apply (upload_pdf_adds_nothing_iff_blank nat Demo.encode Demo.uuid4
           Demo.resolve Demo.open_rejects Demo.add_rejects
           Demo.short_pdf Demo.empty_world Demo.indexed_world).
  - reflexivity.
  - vm_compute. reflexivity.
Defined.

Lemma upload_pdf_source_is_filename_witness :
  exists pages added,
    content Demo.short_pdf = Pages pages
    /\ collection Demo.indexed_world = collection Demo.empty_world ++ added
    /\ forall e, e ∈ added ->
         meta_source (entry_metadata e) = filename Demo.short_pdf
         /\ 1 <= meta_page (entry_metadata e) <= Z.of_nat (length pages).
Proof.
  apply (upload_pdf_source_is_filename nat Demo.encode Demo.uuid4
           Demo.resolve Demo.open_rejects Demo.add_rejects Demo.short_pdf
           Demo.empty_world
           Demo.indexed_world
           {| message := "PDF indexed successfully"; chunks_added := 2 |}).
  - reflexivity.
  - vm_compute. reflexivity.
Defined.

Lemma upload_pdf_twice_accumulates_witness :
  exists w1 w2 added1 added2 n,
    upload_pdf nat Demo.encode Demo.uuid4
         Demo.resolve Demo.open_rejects Demo.add_rejects Demo.short_pdf
      Demo.empty_world
    = (w1, Ok {| message := "PDF indexed successfully"; chunks_added := n |})
    /\ upload_pdf nat Demo.encode Demo.uuid4
         Demo.resolve Demo.open_rejects Demo.add_rejects Demo.short_pdf w1
       = (w2, Ok {| message := "PDF indexed successfully";
                    chunks_added := n |})
    /\ collection w2 = collection Demo.empty_world ++ added1 ++ added2
    /\ map stored_view added1 = map stored_view added2
    /\ length added1 = n.
Proof.
  apply (upload_pdf_twice_accumulates nat Demo.encode Demo.uuid4
           Demo.resolve Demo.open_rejects Demo.add_rejects Demo.short_pdf
           Demo.empty_world
           ["alpha beta"; " "; "gamma"]).
  - exact demo_one_vector_per_text.
  - reflexivity.
  - reflexivity.
  - reflexivity.
  - apply demo_batch_accepted. vm_compute. discriminate.
  - reflexivity.
  - apply demo_batch_accepted. vm_compute. discriminate.
Defined.

(** ** Retrieval: labels, citations and the backend *)

Lemma uint_digits (d : Decimal.uint) :
  all_digits (NilEmpty.string_of_uint d) = true.
Proof. induction d; simpl; done. Qed.

Lemma str_of_int_digits (n : Z) :
  0 <= n -> all_digits (Py.str_of_int n) = true.
Proof.
  intros Hn. unfold Py.str_of_int. destruct n as [|p|p]; [done| |lia].
  simpl. unfold NilZero.string_of_uint.
  destruct (Pos.to_uint p) eqn:Hp; [done|rewrite <- Hp; apply uint_digits..].
Qed.

(** A run of digits followed by "]" can be read back in one way only. *)
Lemma digits_then_bracket (s1 s2 r1 r2 : string) :
  all_digits s1 = true -> all_digits s2 = true ->
  s1 +:+ String "]" r1 = s2 +:+ String "]" r2 ->
  s1 = s2 /\ r1 = r2.
Proof.
  revert s2. induction s1 as [|c s1 IH]; intros s2 H1 H2 Heq.
  - destruct s2 as [|c s2]; [by injection Heq|].
    rewrite sapp_cons in Heq. injection Heq as <- _. done.
  - destruct s2 as [|c2 s2].
    + rewrite sapp_cons in Heq. injection Heq as -> _. done.
    + rewrite !sapp_cons in Heq. injection Heq as -> Heq.
      simpl in H1, H2.
      apply andb_true_iff in H1 as [_ H1]. apply andb_true_iff in H2 as [_ H2].
      destruct (IH s2 H1 H2 Heq) as [-> ->]. done.
Qed.

Lemma source_label_inj (i j : nat) (d d' : string) :
  source_label i d = source_label j d' -> i = j /\ d = d'.
Proof.
  unfold source_label. intros Heq.
  change ("[Source " +:+ ?x) with (String "[" (String "S" (String "o"
    (String "u" (String "r" (String "c" (String "e" (String " " x)))))))) in Heq.
  injection Heq as Heq.
  change ("] " +:+ ?x) with (String "]" (String " " x)) in Heq.
  apply digits_then_bracket in Heq as [Hnum Hdoc];
    [|apply str_of_int_digits; lia..].
  apply str_of_int_inj in Hnum. injection Hdoc as ->. split; [lia|done].
Qed.

(** X16: The labels of one prompt are pairwise distinct, also when the index
    returns the same document more than once. *)
Theorem build_context_labels_distinct (docs : list string)
    (metas : list Metadata) :
  NoDup (build_context docs metas).1.
Proof.
  rewrite build_context_closed. simpl. apply NoDup_alt.
  intros i j label Hi Hj. rewrite list_lookup_imap in Hi, Hj.
  destruct (zip docs metas !! i) as [[d m]|]; [|done].
  destruct (zip docs metas !! j) as [[d' m']|]; [|done].
  simpl in Hi, Hj.
  assert (source_label i d = source_label j d') as Heq by congruence.
  by apply source_label_inj in Heq as [-> _].
Qed.

Section Answers.

Variable Embedding : Type.
Variable encode : list string -> result (list Embedding).
Variable query : list (Entry Embedding) -> Embedding -> Z -> result QueryResult.

#[local] Abbreviation ask := (ask_question Embedding encode query).

(** What an answer cites, for any backend: the documents and metadata of
    the result paired position by position, up to the shorter of the two
    lists. *)
Lemma ask_question_cites (ollama : string -> BackendOutcome)
    (request : QuestionRequest) (w : World Embedding) (v : Embedding)
    (vs : list Embedding) (results : QueryResult) (docs : list string)
    (ds : list (list string)) (metas : list Metadata)
    (ms : list (list Metadata)) (response : AnswerResponse) :
  encode [question request] = Ok (v :: vs) ->
  query (collection w) v (top_k request) = Ok results ->
  documents results = docs :: ds ->
  metadatas results = metas :: ms ->
  (ask ollama request w).2 = Ok response ->
  citations response = zip_with citation_of docs metas.
Proof.
  intros Hv Hq Hdocs Hmetas Hrun.
  rewrite (ask_question_retrieved Embedding encode query ollama
             request w v vs results docs ds) in Hrun by done.
  simpl in Hrun. destruct (bool_decide (docs = [])); [done|].
  rewrite Hmetas in Hrun. simpl first_item in Hrun.
  unfold mbind at 1, result_bind at 1 in Hrun.
  destruct (call_ollama _ _) as [a|e]; [|done].
  simpl in Hrun. injection Hrun as <-. simpl.
  rewrite build_context_closed. simpl. clear.
  revert metas. induction docs as [|d docs IH]; intros [|m metas]; try done.
  simpl. by rewrite IH.
Qed.

(** X17: The citations of an answer are the documents and metadata of the
    result paired position by position; when the index returns lists of
    different lengths, what exceeds the shorter one is dropped without an
    error. *)
Theorem ask_question_citations_zip (ollama : string -> BackendOutcome)
    (request : QuestionRequest) (w : World Embedding) (v : Embedding)
    (vs : list Embedding) (results : QueryResult) (docs : list string)
    (ds : list (list string)) (metas : list Metadata)
    (ms : list (list Metadata)) (response : AnswerResponse) :
  encode [question request] = Ok (v :: vs) ->
  query (collection w) v (top_k request) = Ok results ->
  documents results = docs :: ds ->
  metadatas results = metas :: ms ->
  (ask ollama request w).2 = Ok response ->
  citations response = zip_with citation_of docs metas
  /\ length (citations response) = (length docs `min` length metas)%nat.
Proof.
  intros Hv Hq Hdocs Hmetas Hrun.
  rewrite (ask_question_cites ollama request w v vs results docs ds metas ms
             response) by done.
  split; [done|]. apply length_zip_with.
Qed.

(** X18: Over an index that returns what it stores, every citation of an
    answer inherits the shape of the stored entries: a text of one to 500
    tokens, a page number from 1 on and a source that ends in ".pdf". *)
Theorem ask_question_cites_stored_chunks (ollama : string -> BackendOutcome)
    (request : QuestionRequest) (w : World Embedding) (v : Embedding)
    (vs : list Embedding) (results : QueryResult) (docs : list string)
    (ds : list (list string)) (metas : list Metadata)
    (ms : list (list Metadata)) (response : AnswerResponse) :
  Forall well_formed_entry (collection w) ->
  encode [question request] = Ok (v :: vs) ->
  query (collection w) v (top_k request) = Ok results ->
  documents results = docs :: ds ->
  metadatas results = metas :: ms ->
  returns_stored (collection w) docs metas ->
  (ask ollama request w).2 = Ok response ->
  forall c, c ∈ citations response ->
    (exists e, e ∈ collection w
               /\ text c = entry_document e
               /\ page c = meta_page (entry_metadata e)
               /\ source c = meta_source (entry_metadata e))
    /\ (1 <= length (tokens (text c)) <= 500)%nat
    /\ 1 <= page c
    /\ Py.endswith (source c) ".pdf" = true.
Proof.
  intros Hwf Hv Hq Hdocs Hmetas Hstored Hrun c Hc.
  rewrite (ask_question_cites ollama request w v vs results docs ds metas ms
             response) in Hc by done.
  apply elem_of_lookup_zip_with in Hc as (i & d & m & -> & Hd & Hm).
  destruct (Hstored i d m Hd Hm) as (e & He & <- & <-).
  rewrite Forall_forall in Hwf.
  destruct (Hwf e He) as (Htok & Hpage & _ & Hsrc).
  split; [by exists e|]. by simpl.
Qed.

(** The handler with its sequencing written out. *)
Lemma ask_question_steps (ollama : string -> BackendOutcome)
    (request : QuestionRequest) (w : World Embedding) :
  ask ollama request w
  = (w,
     match encode [question request] with
     | Err e => Err e
     | Ok embeddings =>
     match first_item embeddings with
     | Err e => Err e
     | Ok v =>
     match query (collection w) v (top_k request) with
     | Err e => Err e
     | Ok results =>
     match first_item (documents results) with
     | Err e => Err e
     | Ok docs =>
         if bool_decide (docs = []) then Err NoDocumentsIndexed
         else
           match first_item (metadatas results) with
           | Err e => Err e
           | Ok metas =>
               match call_ollama ollama
                       (prompt_for docs metas (question request)) with
               | Err e => Err e
               | Ok answer =>
                   Ok {| answer := answer;
                         citations := (build_context docs metas).2 |}
               end
           end
     end end end end).
Proof.
  unfold ask_question. f_equal.
  destruct (encode [question request]) as [embeddings|e]; [|done].
  unfold mbind at 1, result_bind at 1.
  destruct (first_item embeddings) as [v|e]; [|done].
  unfold mbind at 1, result_bind at 1.
  destruct (query (collection w) v (top_k request)) as [results|e]; [|done].
  unfold mbind at 1, result_bind at 1.
  destruct (first_item (documents results)) as [docs|e]; [|done].
  unfold mbind at 1, result_bind at 1.
  destruct (bool_decide (docs = [])); [done|].
  destruct (first_item (metadatas results)) as [metas|e]; [|done].
  unfold mbind at 1, result_bind at 1, prompt_for.
  by destruct (build_context docs metas).
Qed.

(** X19: Whether the handler reports that no document is indexed does not
    depend on the backend: if it does so with one backend, it does so
    with every other, which is never consulted on that path. *)
Theorem ask_question_no_documents_any_backend
    (ollama ollama' : string -> BackendOutcome)
    (request : QuestionRequest) (w : World Embedding) :
  (ask ollama request w).2 = Err NoDocumentsIndexed ->
  ask ollama' request w = (w, Err NoDocumentsIndexed).
Proof.
  rewrite !ask_question_steps. simpl snd. intros Hrun. f_equal.
  destruct (encode [question request]) as [embeddings|e]; [|done].
  destruct (first_item embeddings) as [v|e]; [|done].
  destruct (query (collection w) v (top_k request)) as [results|e]; [|done].
  destruct (first_item (documents results)) as [docs|e]; [|done].
  destruct (bool_decide (docs = [])); [done|].
  destruct (first_item (metadatas results)) as [metas|e]; [|done].
  unfold call_ollama in Hrun. destruct (ollama _); discriminate.
Qed.

End Answers.

(** Concrete runs of the retrieval statements. *)

Lemma ask_question_citations_zip_witness :
  let response :=
    {| answer := "It is cited in [Source 1].";
       citations :=
         [{| text := "alpha beta"; page := 1; source := "a.pdf" |};
          {| text := "gamma"; page := 3; source := "a.pdf" |}] |} in
  citations response = zip_with citation_of Demo.docs Demo.metas
  /\ length (citations response)
     = (length Demo.docs `min` length Demo.metas)%nat.
Proof.
  apply (ask_question_citations_zip nat Demo.encode Demo.query Demo.ollama_ok
           Demo.request Demo.indexed_world 14%nat [] Demo.results Demo.docs []
           Demo.metas []).
  - reflexivity.
  - vm_compute. reflexivity.
  - reflexivity.
  - reflexivity.
  - vm_compute. reflexivity.
Defined.

Lemma demo_returns_stored :
  returns_stored (collection Demo.indexed_world) Demo.docs Demo.metas.
Proof.
  intros i d m Hd Hm.
  destruct (collection Demo.indexed_world !! i) as [e|] eqn:He.
  - exists e. split; [by eapply list_elem_of_lookup_2|].
    destruct i as [|[|i]]; [..|done];
      vm_compute in He; injection He as <-;
      injection Hd as <-; injection Hm as <-; done.
  - destruct i as [|[|i]]; [vm_compute in He; discriminate..|done].
Qed.

Lemma ask_question_cites_stored_chunks_witness :
  let c := {| text := "gamma"; page := 3; source := "a.pdf" |} in
  (exists e, e ∈ collection Demo.indexed_world
             /\ text c = entry_document e
             /\ page c = meta_page (entry_metadata e)
             /\ source c = meta_source (entry_metadata e))
  /\ (1 <= length (tokens (text c)) <= 500)%nat
  /\ 1 <= page c
  /\ Py.endswith (source c) ".pdf" = true.
Proof.
  apply (ask_question_cites_stored_chunks nat Demo.encode Demo.query
           Demo.ollama_ok Demo.request Demo.indexed_world 14%nat []
           Demo.results Demo.docs [] Demo.metas []
           {| answer := "It is cited in [Source 1].";
              citations :=
                [{| text := "alpha beta"; page := 1; source := "a.pdf" |};
                 {| text := "gamma"; page := 3; source := "a.pdf" |}] |}).
  - apply (upload_pdf_keeps_entries_well_formed nat Demo.encode Demo.uuid4
             Demo.resolve Demo.open_rejects Demo.add_rejects Demo.short_pdf
             Demo.empty_world).
    constructor.
  - reflexivity.
  - vm_compute. reflexivity.
  - reflexivity.
  - reflexivity.
  - exact demo_returns_stored.
  - vm_compute. reflexivity.
  - right. left.
Defined.

Lemma ask_question_no_documents_any_backend_witness :
  ask_question nat Demo.encode Demo.query Demo.ollama_timeout Demo.request
    Demo.empty_world
  = (Demo.empty_world, Err NoDocumentsIndexed).
Proof.
  apply (ask_question_no_documents_any_backend nat Demo.encode Demo.query
           Demo.ollama_ok Demo.ollama_timeout Demo.request Demo.empty_world).
  reflexivity.
Defined.
